(** * go-wintray: the tray actor, its request protocol and its text marshaling

    A shallow embedding of package [wintray].  The package owns one hidden
    window and one popup menu; a goroutine locked to its thread creates
    them and runs the message loop, and every public method posts a
    wake-up message to the window, hands a [pMessage] over [messageChan]
    and waits on [returnChan] for the error the window procedure computed.

    The embedding follows the version of the package that reports errors;
    the window procedure of the first version, which calls the menu
    callbacks itself, is in module [Legacy].

    Conventions:
    - Go's [uint16], [uint32], [uintptr] and [int] are [Z]; where the
      source relies on a width (the [menuIds] counter) the wrap-around is
      written out with [mod];
    - a Go [string] is a Rocq [string], read as its sequence of bytes;
    - a fixed-size array of [uint16] is a [list Z] of that length, indexed
      with an explicit bounds check because an index out of range panics;
    - a [panic] is the result [Panic] (or [None] in the pure helpers);
    - calls into the operating system are answered by a [Platform] and
      recorded, with their answers, in the actor's [trace]. *)

From Stdlib Require Import ZArith Lia List Ascii String Sorted.
From stdpp Require Import base list gmap strings.

Local Open Scope Z_scope.

(** ** Go's string to UTF-16 conversion

    The conversion of the Go releases before 1.21, which is
    [utf16.Encode([]rune(s))]: a surrogate half written as three bytes is
    malformed UTF-8 and becomes [RuneError] byte by byte.  Later releases
    read such bytes as WTF-8 and keep the half as one code unit.  The
    properties of the package rest on two facts that hold of both: the
    code units of a text without NUL byte hold no NUL, and there are at
    most as many of them as the text has bytes. *)

Module Utf16.

Definition RuneError : Z := 0xFFFD.

(** The bytes of a Go string. *)
Definition bytes (s : string) : list Z :=
  (fun c => Z.of_N (N_of_ascii c)) <$> list_ascii_of_string s.

Definition between (lo hi b : Z) : bool := (lo <=? b) && (b <=? hi).

(** [unicode/utf8]'s table [first]: for a leading byte, the length of
    the sequence and the accepted range of the second byte; [None] for
    ASCII and for bytes that cannot start a sequence. *)
Definition first (b0 : Z) : option (nat * Z * Z) :=
  if between 0xC2 0xDF b0 then Some (2%nat, 0x80, 0xBF)
  else if b0 =? 0xE0 then Some (3%nat, 0xA0, 0xBF)
  else if between 0xE1 0xEC b0 then Some (3%nat, 0x80, 0xBF)
  else if b0 =? 0xED then Some (3%nat, 0x80, 0x9F)
  else if between 0xEE 0xEF b0 then Some (3%nat, 0x80, 0xBF)
  else if b0 =? 0xF0 then Some (4%nat, 0x90, 0xBF)
  else if between 0xF1 0xF3 b0 then Some (4%nat, 0x80, 0xBF)
  else if b0 =? 0xF4 then Some (4%nat, 0x80, 0x8F)
  else None.

(** [utf8.DecodeRuneInString] on a non-empty string: the rune and the
    number of bytes it takes.  Every malformed sequence yields
    [RuneError] and consumes one byte. *)
Definition DecodeRune (b0 : Z) (rest : list Z) : Z * nat :=
  match first b0 with
  | None => (if b0 <? 0x80 then b0 else RuneError, 1%nat)
  | Some (sz, lo, hi) =>
    match rest with
    | [] => (RuneError, 1%nat)
    | b1 :: rest1 =>
      if negb (between lo hi b1) then (RuneError, 1%nat)
      else if (sz <=? 2)%nat then
        (Z.lor (Z.shiftl (Z.land b0 0x1F) 6) (Z.land b1 0x3F), 2%nat)
      else
        match rest1 with
        | [] => (RuneError, 1%nat)
        | b2 :: rest2 =>
          if negb (between 0x80 0xBF b2) then (RuneError, 1%nat)
          else if (sz <=? 3)%nat then
            (Z.lor (Z.lor (Z.shiftl (Z.land b0 0x0F) 12)
                          (Z.shiftl (Z.land b1 0x3F) 6))
                   (Z.land b2 0x3F), 3%nat)
          else
            match rest2 with
            | [] => (RuneError, 1%nat)
            | b3 :: _ =>
              if negb (between 0x80 0xBF b3) then (RuneError, 1%nat)
              else
                (Z.lor (Z.lor (Z.lor (Z.shiftl (Z.land b0 0x07) 18)
                                     (Z.shiftl (Z.land b1 0x3F) 12))
                              (Z.shiftl (Z.land b2 0x3F) 6))
                       (Z.land b3 0x3F), 4%nat)
            end
        end
    end
  end.

(** [[]rune(s)]: decode until the bytes are used up.  Each step takes
    at least one byte, so [length s] steps are always enough. *)
Fixpoint runes_from (steps : nat) (s : list Z) : list Z :=
  match steps, s with
  | S steps', b0 :: rest =>
    let '(r, sz) := DecodeRune b0 rest in
    r :: runes_from steps' (drop sz s)
  | _, _ => []
  end.

Definition runes (s : list Z) : list Z := runes_from (length s) s.

(** [utf16.Encode] on one rune. *)
Definition EncodeRune (r : Z) : list Z :=
  if (0 <=? r) && (r <? 0xD800) || (0xE000 <=? r) && (r <? 0x10000) then [r]
  else if (0x10000 <=? r) && (r <=? 0x10FFFF) then
    let r' := r - 0x10000 in
    [0xD800 + Z.land (Z.shiftr r' 10) 0x3FF; 0xDC00 + Z.land r' 0x3FF]
  else [RuneError].

Definition Encode (rs : list Z) : list Z := concat (EncodeRune <$> rs).

(** The code units of a text, without terminator. *)
Definition units (s : string) : list Z := Encode (runes (bytes s)).

(** [syscall.UTF16FromString]: [EINVAL] when the string holds a NUL
    byte, otherwise its UTF-16 code units followed by a terminating
    NUL. *)
Definition UTF16FromString (s : string) : option (list Z) :=
  if bool_decide (0 ∈ bytes s) then None else Some (units s ++ [0]).

End Utf16.

(** [mustUTF16FromString]: the conversion, with the error turned into a
    panic ([None]). *)
Definition mustUTF16FromString (v : string) : option (list Z) :=
  Utf16.UTF16FromString v.

(** [mustUTF16PtrFromString]: a pointer to the first unit of the same
    NUL-terminated array, so the array itself. *)
Definition mustUTF16PtrFromString (v : string) : option (list Z) :=
  Utf16.UTF16FromString v.

(** ** Copying a text into a fixed-size field *)

(** [vBuff.Index(i).Set(v)]: panics when [i] is outside the array. *)
Definition index_set (buff : list Z) (i v : Z) : option (list Z) :=
  if (0 <=? i) && (i <? Z.of_nat (length buff))
  then Some (<[Z.to_nat i := v]> buff) else None.

(** The body of the [for i, v := range ...] loop of
    [copyToUint16Buffer], from index [i] on. *)
Fixpoint copy_loop (buff : list Z) (i : Z) (src : list Z) : option (list Z) :=
  match src with
  | [] => Some buff
  | v :: src' =>
    if i =? Z.of_nat (length buff)
    then index_set buff (i - 1) 0
    else
      match index_set buff i v with
      | Some buff' => copy_loop buff' (i + 1) src'
      | None => None
      end
  end.

Definition copyToUint16Buffer (buff : list Z) (text : string) : option (list Z) :=
  match mustUTF16FromString text with
  | Some src => copy_loop buff 0 src
  | None => None
  end.

(** What a reader of a NUL-terminated field sees: the units before the
    first NUL. *)
Fixpoint cstring (buff : list Z) : list Z :=
  match buff with
  | [] => []
  | v :: buff' => if v =? 0 then [] else v :: cstring buff'
  end.

(** ** Constants of the package and of [lxn/win] *)

Definition TRUE : Z := 1.
Definition WM_CREATE : Z := 0x0001.
Definition WM_QUIT : Z := 0x0012.
Definition WM_CONTEXTMENU : Z := 0x007B.
Definition WM_RBUTTONUP : Z := 0x0205.
Definition WM_APP : Z := 0x8000.

Definition NIM_ADD : Z := 0.
Definition NIM_MODIFY : Z := 1.
Definition NIM_DELETE : Z := 2.
Definition NIM_SETVERSION : Z := 4.
Definition NIF_MESSAGE : Z := 0x01.
Definition NIF_ICON : Z := 0x02.
Definition NIF_TIP : Z := 0x04.
Definition NIF_INFO : Z := 0x10.
Definition NIF_SHOWTIP : Z := 0x80.
Definition NOTIFYICON_VERSION_4 : Z := 4.

Definition MF_SEPARATOR : Z := 0x800.
Definition TPM_LEFTALIGN : Z := 0x0000.
Definition TPM_RIGHTALIGN : Z := 0x0008.
Definition TPM_RETURNCMD : Z := 0x0100.
Definition SM_MENUDROPALIGNMENT : Z := 40.
Definition IMAGE_ICON : Z := 1.
Definition LR_DEFAULTSIZE : Z := 0x0040.
Definition LR_LOADFROMFILE : Z := 0x0010.
Definition HWND_MESSAGE : Z := -3.

(** The [const] block of the package: [iota] counts the lines of the
    block, [DPI_AWARENESS_CONTEXT_SYSTEM_AWARE] being line 0.  That one
    is [^uintptr(1)], with a [uintptr] of 64 bits. *)
Definition DPI_AWARENESS_CONTEXT_SYSTEM_AWARE : Z := Z.lnot 1 mod 2 ^ 64.
Definition pWMAPP_NOTIFYCALLBACK : Z := 1 + WM_APP + 1.
Definition pWMAPP_MESSAGE : Z := 2 + WM_APP + 1.
Definition pMESSAGE_SET_ICON_FROM_BYTES : Z := 3.
Definition pMESSAGE_SET_TIP : Z := 4.
Definition pMESSAGE_ADD_MENU_ITEM : Z := 5.
Definition pMESSAGE_ADD_MENU_SEPARATOR : Z := 6.
Definition pMESSAGE_SHOW_NOTIFICATION : Z := 7.

(** [uint32] arithmetic. *)
Definition uint32_max : Z := 2 ^ 32.
Definition uint32 (v : Z) : Z := v mod uint32_max.
Definition LOWORD (v : Z) : Z := Z.land v 0xFFFF.

(** ** Data *)

(** A Go [func()] as the actor sees it: which closure it is, and whether
    a call to it comes back. *)
Record Callback := { cb_name : string; cb_returns : bool }.

(** Go's [error]: [None] is [nil]. *)
Inductive err :=
| errors_New (text : string)
| Errno (code : Z)
| PathError (op : string).
Abbreviation error := (option err).

Record pDataAddMenuItem := { Text : string; Fn : Callback }.
Record pDataShowNotification := { Info : string; InfoTitle : string }.

(** The dynamic type of [pMessage.Data]. *)
Inductive any :=
| any_nil
| any_bytes (b : list Z)
| any_string (s : string)
| any_pDataAddMenuItem (d : pDataAddMenuItem)
| any_pDataShowNotification (d : pDataShowNotification).

Record pMessage := { Type_ : Z; Data : any }.

Record POINT := { X : Z; Y : Z }.

Record MSG := { msg_hwnd : Z; message : Z; wParam : Z; lParam : Z }.

(** [win.NOTIFYICONDATA]; the three text fields are arrays of 128, 256
    and 64 code units. *)
Record NOTIFYICONDATA := {
  CbSize : Z;
  HWnd : Z;
  UID : Z;
  UFlags : Z;
  UCallbackMessage : Z;
  HIcon : Z;
  SzTip : list Z;
  SzInfo : list Z;
  UVersion : Z;
  SzInfoTitle : list Z
}.

Definition SzTip_len : nat := 128.
Definition SzInfo_len : nat := 256.
Definition SzInfoTitle_len : nat := 64.

(** The zero value [win.NOTIFYICONDATA{}]. *)
Definition NOTIFYICONDATA_zero : NOTIFYICONDATA :=
  {| CbSize := 0; HWnd := 0; UID := 0; UFlags := 0; UCallbackMessage := 0;
     HIcon := 0; SzTip := replicate SzTip_len 0;
     SzInfo := replicate SzInfo_len 0; UVersion := 0;
     SzInfoTitle := replicate SzInfoTitle_len 0 |}.

(** [unsafe.Sizeof(win.NOTIFYICONDATA{})] on a 64-bit target. *)
Definition sizeof_NOTIFYICONDATA : Z := 976.

(** ** The operating system, as seen from the actor *)

(** Everything the actor does that is visible outside of it, in the order
    it happens, each call with the answer it got. *)
Inductive Event :=
| Shell_NotifyIcon (dwMessage : Z) (nid : NOTIFYICONDATA) (ret : bool)
| AppendMenuW (hmenu uFlags uIDNewItem : Z) (lpNewItem : option (list Z)) (ret : Z)
| CreateTemp (f : option string)
| Copy (name : string) (b : list Z)
| FileClose (name : string)
| Remove (name : string)
| LoadImage (name : list Z) (uType fuLoad ret : Z)
| GetCursorPos (pt : POINT)
| SetForegroundWindow (hwnd : Z)
| GetSystemMetrics (index ret : Z)
| TrackPopupMenu (hmenu flags x y hwnd ret : Z)
| go (fn : Callback)
| invoke (fn : Callback)
| recv_messageChan (m : pMessage)
| send_returnChan (e : error)
| DefWindowProc (hwnd msg wparam lparam ret : Z)
| LockOSThread
| UnlockOSThread
| SetThreadDpiAwarenessContext (ctx : Z)
| newIconId_Add (v : Z)
| CreatePopupMenu (ret : Z)
| GetModuleHandle (ret : Z)
| RegisterClassEx
| CreateWindowEx (ret : Z)
| send_hwndChan (hwnd : Z)
| close_hwndChan
| GetMessage (m : MSG) (ret : Z)
| TranslateMessage (m : MSG)
| DispatchMessage (m : MSG)
| close_closedChan
| GetShellWindow (ret : Z)
| GetDpiForWindow (hwnd ret : Z).

(** The answers of the operating system.  Each may depend on everything
    that happened before, so a platform can accept one call and reject
    the next. *)
Record Platform := {
  (* history, dwMessage, data: accepted or not *)
  p_Shell_NotifyIcon : list Event -> Z -> NOTIFYICONDATA -> bool;
  (* history, hmenu, uFlags, uIDNewItem, lpNewItem: result and last error *)
  p_AppendMenuW : list Event -> Z -> Z -> Z -> option (list Z) -> Z * Z;
  (* the name chosen for the temporary file, if one can be made *)
  p_CreateTemp : list Event -> option string;
  (* history, file name, bytes in the file: the icon handle, or 0 *)
  p_LoadImage : list Event -> list Z -> list Z -> Z;
  p_GetCursorPos : list Event -> POINT;
  p_GetSystemMetrics : list Event -> Z -> Z;
  p_TrackPopupMenu : list Event -> Z -> Z -> Z -> Z -> Z -> Z;
  p_DefWindowProc : list Event -> Z -> Z -> Z -> Z -> Z;
  (* whether User32.dll has SetThreadDpiAwarenessContext *)
  p_hasSetThreadDpiAwarenessContext : bool;
  (* the value of the package counter newIconId when run starts *)
  p_newIconId : Z;
  p_CreatePopupMenu : list Event -> Z;
  p_GetModuleHandle : list Event -> Z;
  p_CreateWindowEx : list Event -> Z
}.

(** The temporary files that exist: created and not removed. *)
Definition live_files (t : list Event) : list string :=
  foldl (fun fs e => match e with
                     | CreateTemp (Some name) => fs ++ [name]
                     | Remove name => filter (fun f => f ≠ name) fs
                     | _ => fs
                     end) [] t.

(** ** The actor's state and its monad *)

(** The variables [wndProc] closes over and changes, the requests the
    callers have ready on [messageChan], and the history. *)
Record State := {
  menuIds : Z;
  menuFns : gmap Z Callback;
  messageChan : list pMessage;
  trace : list Event
}.

Definition set_menuIds (v : Z) (s : State) : State :=
  {| menuIds := v; menuFns := menuFns s;
     messageChan := messageChan s; trace := trace s |}.
Definition set_menuFns (m : gmap Z Callback) (s : State) : State :=
  {| menuIds := menuIds s; menuFns := m;
     messageChan := messageChan s; trace := trace s |}.
Definition set_messageChan (c : list pMessage) (s : State) : State :=
  {| menuIds := menuIds s; menuFns := menuFns s;
     messageChan := c; trace := trace s |}.
Definition log (e : Event) (s : State) : State :=
  {| menuIds := menuIds s; menuFns := menuFns s;
     messageChan := messageChan s; trace := trace s ++ [e] |}.

(** A computation ends with a value, panics, or waits forever for
    something that does not come. *)
Inductive Res (A : Type) :=
| Ok (a : A) (s : State)
| Panic (s : State)
| Block (s : State).
Arguments Ok {A} a s.
Arguments Panic {A} s.
Arguments Block {A} s.

Definition M (A : Type) : Type := State -> Res A.

#[global] Instance M_ret : MRet M := fun A a s => Ok a s.
#[global] Instance M_bind : MBind M := fun A B k m s =>
  match m s with
  | Ok a s' => k a s'
  | Panic s' => Panic s'
  | Block s' => Block s'
  end.

Definition panic {A} : M A := fun s => Panic s.
Definition block {A} : M A := fun s => Block s.
Definition emit (e : Event) : M unit := fun s => Ok tt (log e s).
Definition history : M (list Event) := fun s => Ok (trace s) s.

(** [defer d] around [m]: [d] runs when [m] returns and when it panics. *)
Definition defer {A} (d : M unit) (m : M A) : M A :=
  fun s => match m s with
           | Ok a s' => match d s' with
                        | Ok _ s'' => Ok a s''
                        | Panic s'' => Panic s''
                        | Block s'' => Block s''
                        end
           | Panic s' => match d s' with
                         | Ok _ s'' => Panic s''
                         | Panic s'' => Panic s''
                         | Block s'' => Block s''
                         end
           | Block s' => Block s'
           end.

(** A panic of the pure helpers becomes a panic of the actor. *)
Definition must {A} (o : option A) : M A :=
  match o with Some a => mret a | None => panic end.

(** A call into the operating system: ask the platform, given the
    history, and record the call with its answer. *)
Definition syscall {A} (answer : list Event -> A) (ev : A -> Event) : M A :=
  fun s => let a := answer (trace s) in Ok a (log (ev a) s).

(** ** The methods of [WinTray] that run on the actor's thread *)

(** A [win.NOTIFYICONDATA] literal with its text fields left zero. *)
Definition nid_lit (cbSize hwnd uid uFlags uCallbackMessage hIcon uVersion : Z)
  : NOTIFYICONDATA :=
  {| CbSize := cbSize; HWnd := hwnd; UID := uid; UFlags := uFlags;
     UCallbackMessage := uCallbackMessage; HIcon := hIcon;
     SzTip := SzTip NOTIFYICONDATA_zero;
     SzInfo := SzInfo NOTIFYICONDATA_zero; UVersion := uVersion;
     SzInfoTitle := SzInfoTitle NOTIFYICONDATA_zero |}.

Definition set_SzTip (v : list Z) (n : NOTIFYICONDATA) : NOTIFYICONDATA :=
  {| CbSize := CbSize n; HWnd := HWnd n; UID := UID n; UFlags := UFlags n;
     UCallbackMessage := UCallbackMessage n; HIcon := HIcon n;
     SzTip := v; SzInfo := SzInfo n; UVersion := UVersion n;
     SzInfoTitle := SzInfoTitle n |}.
Definition set_SzInfo (v : list Z) (n : NOTIFYICONDATA) : NOTIFYICONDATA :=
  {| CbSize := CbSize n; HWnd := HWnd n; UID := UID n; UFlags := UFlags n;
     UCallbackMessage := UCallbackMessage n; HIcon := HIcon n;
     SzTip := SzTip n; SzInfo := v; UVersion := UVersion n;
     SzInfoTitle := SzInfoTitle n |}.
Definition set_SzInfoTitle (v : list Z) (n : NOTIFYICONDATA) : NOTIFYICONDATA :=
  {| CbSize := CbSize n; HWnd := HWnd n; UID := UID n; UFlags := UFlags n;
     UCallbackMessage := UCallbackMessage n; HIcon := HIcon n;
     SzTip := SzTip n; SzInfo := SzInfo n; UVersion := UVersion n;
     SzInfoTitle := v |}.

Section Actor.
Context (P : Platform).

Definition shell_NotifyIcon (dwMessage : Z) (nid : NOTIFYICONDATA) : M bool :=
  syscall (fun h => p_Shell_NotifyIcon P h dwMessage nid)
          (Shell_NotifyIcon dwMessage nid).

Definition createTrayIcon (hwnd iconId : Z) : M unit :=
  shell_NotifyIcon NIM_ADD
    (nid_lit 0 hwnd iconId NIF_MESSAGE pWMAPP_NOTIFYCALLBACK 0 0);;
  mret tt.

Definition destroyTrayIcon (hwnd iconId : Z) : M unit :=
  shell_NotifyIcon NIM_DELETE (nid_lit 0 hwnd iconId 0 0 0 0);;
  mret tt.

Definition setVersion (hwnd iconId : Z) : M unit :=
  shell_NotifyIcon NIM_SETVERSION
    (nid_lit 0 hwnd iconId 0 0 0 NOTIFYICON_VERSION_4);;
  mret tt.

(** [os.CreateTemp] for an [.ico] file: the system picks the name.  The
    file is opened with [O_EXCL] and through the same UTF-16 conversion as
    every other path, so the name of an existing file or a name with a NUL
    byte is an error and creates nothing. *)
Definition os_CreateTemp : M (option string) :=
  syscall (fun h => match p_CreateTemp P h with
                    | Some name =>
                      if bool_decide (0 ∈ Utf16.bytes name \/
                                      name ∈ live_files h)
                      then None else Some name
                    | None => None
                    end) CreateTemp.

Definition setIcon (hwnd iconId : Z) (b : list Z) : M error :=
  f ← os_CreateTemp;
  match f with
  | None => mret (Some (PathError "open"))
  | Some name =>
    defer (emit (Remove name))
      (emit (Copy name b);;
       emit (FileClose name);;
       lpName ← must (mustUTF16PtrFromString name);
       h ← syscall (fun h => p_LoadImage P h lpName b)
                   (LoadImage lpName IMAGE_ICON
                              (Z.lor LR_DEFAULTSIZE LR_LOADFROMFILE));
       if h =? 0 then mret (Some (errors_New "unable to load icon"))
       else
         ok ← shell_NotifyIcon NIM_MODIFY
                (nid_lit 0 hwnd iconId NIF_ICON 0 h 0);
         if negb ok then mret (Some (errors_New "unable to change icon"))
         else mret None)
  end.

Definition setTip (hwnd iconId : Z) (text : string) : M error :=
  let nid := nid_lit sizeof_NOTIFYICONDATA hwnd iconId
                     (Z.lor NIF_TIP NIF_SHOWTIP) 0 0 0 in
  tip ← must (copyToUint16Buffer (SzTip nid) text);
  ok ← shell_NotifyIcon NIM_MODIFY (set_SzTip tip nid);
  if negb ok then mret (Some (errors_New "unable to change tooltip"))
  else mret None.

Definition appendMenuW (hmenu uFlags uIDNewItem : Z)
    (lpNewItem : option (list Z)) : M (Z * Z) :=
  syscall (fun h => p_AppendMenuW P h hmenu uFlags uIDNewItem lpNewItem)
          (fun r => AppendMenuW hmenu uFlags uIDNewItem lpNewItem (fst r)).

Definition addMenuItem (hmenu id : Z) (text : string) : M error :=
  lpNewItem ← must (mustUTF16PtrFromString text);
  r ← appendMenuW hmenu 0 id (Some lpNewItem);
  if fst r =? 0 then mret (Some (Errno (snd r))) else mret None.

Definition addMenuSeparator (hmenu : Z) : M error :=
  r ← appendMenuW hmenu MF_SEPARATOR 0 None;
  if fst r =? 0 then mret (Some (Errno (snd r))) else mret None.

Definition showNotification (hwnd iconId : Z) (info infoTitle : string)
  : M error :=
  let nid := nid_lit sizeof_NOTIFYICONDATA hwnd iconId NIF_INFO 0 0 0 in
  szInfo ← must (copyToUint16Buffer (SzInfo nid) info);
  let nid := set_SzInfo szInfo nid in
  szInfoTitle ← must (copyToUint16Buffer (SzInfoTitle nid) infoTitle);
  let nid := set_SzInfoTitle szInfoTitle nid in
  ok ← shell_NotifyIcon NIM_MODIFY nid;
  if negb ok then mret (Some (errors_New "unable to display notification"))
  else mret None.

Definition showMenu (hwnd hmenu : Z) (pt : POINT) : M Z :=
  emit (SetForegroundWindow hwnd);;
  align ← syscall (fun h => p_GetSystemMetrics P h SM_MENUDROPALIGNMENT)
                  (GetSystemMetrics SM_MENUDROPALIGNMENT);
  let extraFlags := if align =? 0 then TPM_LEFTALIGN else TPM_RIGHTALIGN in
  let flags := Z.lor TPM_RETURNCMD extraFlags in
  ret ← syscall (fun h => p_TrackPopupMenu P h hmenu flags (X pt) (Y pt) hwnd)
                (TrackPopupMenu hmenu flags (X pt) (Y pt) hwnd);
  mret (uint32 ret).

(** ** The closures of [run] *)

Definition newMenuId : M Z :=
  fun s => Ok (menuIds s) (set_menuIds (uint32 (menuIds s + 1)) s).

(** [m := <-w.messageChan]: waits until a caller hands a request over. *)
Definition recv : M pMessage :=
  fun s => match messageChan s with
           | [] => Block s
           | m :: c => Ok m (log (recv_messageChan m) (set_messageChan c s))
           end.

(** [w.returnChan <- e] *)
Definition send (e : error) : M unit := emit (send_returnChan e).

Definition defWindowProc (hwnd msg wparam lparam : Z) : M Z :=
  syscall (fun h => p_DefWindowProc P h hwnd msg wparam lparam)
          (DefWindowProc hwnd msg wparam lparam).

Definition wndProc (iconId hmenu : Z) (hwnd msg wparam lparam : Z) : M Z :=
  if msg =? WM_CREATE then
    createTrayIcon hwnd iconId;;
    setVersion hwnd iconId;;
    mret 0
  else if msg =? WM_QUIT then
    destroyTrayIcon hwnd iconId;;
    mret 0
  else if msg =? pWMAPP_NOTIFYCALLBACK then
    if LOWORD (uint32 lparam) =? WM_RBUTTONUP then
      pt ← syscall (p_GetCursorPos P) GetCursorPos;
      id ← showMenu hwnd hmenu pt;
      fns ← (fun s => Ok (menuFns s) s);
      match fns !! id with
      | Some fn => emit (go fn)
      | None => mret tt
      end;;
      mret 0
    else defWindowProc hwnd msg wparam lparam
  else if msg =? pWMAPP_MESSAGE then
    m ← recv;
    (if Type_ m =? pMESSAGE_SET_ICON_FROM_BYTES then
       match Data m with
       | any_bytes b => e ← setIcon hwnd iconId b; send e
       | _ => panic
       end
     else if Type_ m =? pMESSAGE_SET_TIP then
       match Data m with
       | any_string text => e ← setTip hwnd iconId text; send e
       | _ => panic
       end
     else if Type_ m =? pMESSAGE_ADD_MENU_ITEM then
       match Data m with
       | any_pDataAddMenuItem d =>
         id ← newMenuId;
         (fun s => Ok tt (set_menuFns (<[id := Fn d]> (menuFns s)) s));;
         e ← addMenuItem hmenu id (Text d);
         send e
       | _ => panic
       end
     else if Type_ m =? pMESSAGE_ADD_MENU_SEPARATOR then
       e ← addMenuSeparator hmenu; send e
     else if Type_ m =? pMESSAGE_SHOW_NOTIFICATION then
       match Data m with
       | any_pDataShowNotification d =>
         e ← showNotification hwnd iconId (Info d) (InfoTitle d); send e
       | _ => panic
       end
     else mret tt);;
    mret 0
  else defWindowProc hwnd msg wparam lparam.

(** ** The event loop *)

(** [win.GetMessage] retrieving [m]: by the contract of the call the
    result is zero when [m] is [WM_QUIT] and [TRUE] for every other
    message. *)
Definition getMessage (m : MSG) : M Z :=
  let ret := if message m =? WM_QUIT then 0 else TRUE in
  emit (GetMessage m ret);; mret ret.

(** [for win.GetMessage(&msg, 0, 0, 0) == win.TRUE { ... }] over the
    messages that reach the actor's queue, in the order they are
    retrieved.  When the queue is used up [GetMessage] waits. *)
Fixpoint pump (iconId hmenu : Z) (queue : list MSG) : M unit :=
  match queue with
  | [] => block
  | m :: queue' =>
    ret ← getMessage m;
    if ret =? TRUE then
      emit (TranslateMessage m);;
      emit (DispatchMessage m);;
      wndProc iconId hmenu (msg_hwnd m) (message m) (wParam m) (lParam m);;
      pump iconId hmenu queue'
    else mret tt
  end.

(** [win.CreateWindowEx]: when the window is created the system sends
    it [WM_CREATE] before the call returns. *)
Definition createWindowEx (iconId hmenu : Z) : M Z :=
  h ← history;
  let hwnd := p_CreateWindowEx P h in
  (if hwnd =? 0 then mret 0 else wndProc iconId hmenu hwnd WM_CREATE 0 0);;
  emit (CreateWindowEx hwnd);;
  mret hwnd.

Definition run (queue : list MSG) : M unit :=
  defer (emit close_closedChan)
    (emit LockOSThread;;
     defer (emit UnlockOSThread)
       ((if p_hasSetThreadDpiAwarenessContext P
         then emit (SetThreadDpiAwarenessContext
                      DPI_AWARENESS_CONTEXT_SYSTEM_AWARE)
         else mret tt);;
        let iconId := uint32 (p_newIconId P + 1) in
        emit (newIconId_Add iconId);;
        hmenu ← syscall (p_CreatePopupMenu P) CreatePopupMenu;
        (fun s => Ok tt (set_menuIds 100 (set_menuFns ∅ s)));;
        hinstance ← syscall (p_GetModuleHandle P) GetModuleHandle;
        must (mustUTF16PtrFromString "WndClass");;
        emit RegisterClassEx;;
        must (mustUTF16PtrFromString "WndClass");;
        must (mustUTF16PtrFromString "System Tray Window");;
        hwnd ← createWindowEx iconId hmenu;
        emit (send_hwndChan hwnd);;
        emit close_hwndChan;;
        pump iconId hmenu queue)).

End Actor.

(** ** The first version of the window procedure ([src/wintray.go])

    This version has no [returnChan], marshals the tooltip by hand, scales
    the menu position by the DPI of the shell window, and calls the
    selected callback itself. *)

Module Legacy.

Definition pWMAPP_NOTIFYCALLBACK : Z := 0 + WM_APP + 1.
Definition pWMAPP_MESSAGE : Z := 1 + WM_APP + 1.
Definition pMESSAGE_SET_ICON : Z := 2.
Definition pMESSAGE_SET_TIP : Z := 3.
Definition pMESSAGE_ADD_MENU_ITEM : Z := 4.

(** The calls only this version makes.  [p_scaled dpi v] stands for
    [int32(float32(v) / scale)] with [scale = float32(dpi) / 96], or 1
    when that is zero; the floating-point arithmetic is not spelled
    out. *)
Record Extra := {
  p_GetShellWindow : list Event -> Z;
  p_GetDpiForWindow : list Event -> Z -> Z;
  p_scaled : Z -> Z -> Z
}.

Definition HIWORD (v : Z) : Z := Z.land (Z.shiftr v 16) 0xFFFF.
Definition int16 (v : Z) : Z :=
  let u := v mod 2 ^ 16 in if u <? 2 ^ 15 then u else u - 2 ^ 16.
Definition GET_X_LPARAM (lp : Z) : Z := int16 (LOWORD (uint32 lp)).
Definition GET_Y_LPARAM (lp : Z) : Z := int16 (HIWORD (uint32 lp)).

(** [fn()]: the call comes back only if the callback does. *)
Definition call_fn (fn : Callback) : M unit :=
  fun s => if cb_returns fn then Ok tt (log (invoke fn) s)
           else Block (log (invoke fn) s).

Section Actor.
Context (P : Platform) (E : Extra).

(** The loop of [setTip]: it stops at the end of the field and writes no
    terminator. *)
Fixpoint tip_loop (buff : list Z) (i : Z) (src : list Z) : option (list Z) :=
  match src with
  | [] => Some buff
  | v :: src' =>
    if i =? Z.of_nat (length buff) then Some buff
    else
      match index_set buff i v with
      | Some buff' => tip_loop buff' (i + 1) src'
      | None => None
      end
  end.

Definition setTip (hwnd iconId : Z) (text : string) : M unit :=
  let nid := nid_lit 0 hwnd iconId NIF_TIP 0 0 0 in
  src ← must (mustUTF16FromString text);
  tip ← must (tip_loop (SzTip nid) 0 src);
  shell_NotifyIcon P NIM_MODIFY (set_SzTip tip nid);;
  mret tt.

Definition addMenuItem (hmenu id : Z) (text : string) : M unit :=
  lpNewItem ← must (mustUTF16PtrFromString text);
  appendMenuW P hmenu 0 id (Some lpNewItem);;
  mret tt.

Definition showMenu (hwnd hmenu : Z) (pt : POINT) : M Z :=
  emit (SetForegroundWindow hwnd);;
  shellHwnd ← syscall (p_GetShellWindow E) GetShellWindow;
  dpi ← syscall (fun h => p_GetDpiForWindow E h shellHwnd)
                (GetDpiForWindow shellHwnd);
  align ← syscall (fun h => p_GetSystemMetrics P h SM_MENUDROPALIGNMENT)
                  (GetSystemMetrics SM_MENUDROPALIGNMENT);
  let extraFlags := if align =? 0 then TPM_LEFTALIGN else TPM_RIGHTALIGN in
  let flags := Z.lor TPM_RETURNCMD extraFlags in
  let x := p_scaled E dpi (X pt) in
  let y := p_scaled E dpi (Y pt) in
  ret ← syscall (fun h => p_TrackPopupMenu P h hmenu flags x y hwnd)
                (TrackPopupMenu hmenu flags x y hwnd);
  mret (uint32 ret).

Definition wndProc (iconId hmenu : Z) (hwnd msg wparam lparam : Z) : M Z :=
  if msg =? WM_CREATE then
    createTrayIcon P hwnd iconId;;
    setVersion P hwnd iconId;;
    mret 0
  else if msg =? pWMAPP_NOTIFYCALLBACK then
    (if LOWORD (uint32 lparam) =? WM_CONTEXTMENU then
       id ← showMenu hwnd hmenu
              {| X := GET_X_LPARAM wparam; Y := GET_Y_LPARAM wparam |};
       fns ← (fun s => Ok (menuFns s) s);
       match fns !! id with
       | Some fn => call_fn fn
       | None => mret tt
       end
     else mret tt);;
    mret 0
  else if msg =? pWMAPP_MESSAGE then
    m ← recv;
    (if Type_ m =? pMESSAGE_SET_TIP then
       match Data m with
       | any_string text => setTip hwnd iconId text
       | _ => panic
       end
     else if Type_ m =? pMESSAGE_ADD_MENU_ITEM then
       match Data m with
       | any_pDataAddMenuItem d =>
         id ← newMenuId;
         (fun s => Ok tt (set_menuFns (<[id := Fn d]> (menuFns s)) s));;
         addMenuItem hmenu id (Text d)
       | _ => panic
       end
     else mret tt);;
    mret 0
  else defWindowProc P hwnd msg wparam lparam.

Fixpoint pump (iconId hmenu : Z) (queue : list MSG) : M unit :=
  match queue with
  | [] => block
  | m :: queue' =>
    ret ← getMessage m;
    if ret =? TRUE then
      emit (TranslateMessage m);;
      emit (DispatchMessage m);;
      wndProc iconId hmenu (msg_hwnd m) (message m) (wParam m) (lParam m);;
      pump iconId hmenu queue'
    else mret tt
  end.

End Actor.

End Legacy.

(** ** The public methods, on the caller's goroutine *)

Record WinTray := { hwnd : Z }.

(** What a caller does to the actor, in order. *)
Inductive CallerEvent :=
| go_run
| recv_hwndChan
| PostMessage (hWnd msg wparam lparam : Z)
| send_messageChan (m : pMessage)
| recv_returnChan
| recv_closedChan.

Definition SetIconFromBytes (w : WinTray) (b : list Z) : list CallerEvent :=
  [ PostMessage (hwnd w) pWMAPP_MESSAGE 0 0;
    send_messageChan {| Type_ := pMESSAGE_SET_ICON_FROM_BYTES;
                        Data := any_bytes b |};
    recv_returnChan ].

Definition SetTip (w : WinTray) (text : string) : list CallerEvent :=
  [ PostMessage (hwnd w) pWMAPP_MESSAGE 0 0;
    send_messageChan {| Type_ := pMESSAGE_SET_TIP; Data := any_string text |};
    recv_returnChan ].

Definition AddMenuItem (w : WinTray) (text : string) (fn : Callback)
  : list CallerEvent :=
  [ PostMessage (hwnd w) pWMAPP_MESSAGE 0 0;
    send_messageChan
      {| Type_ := pMESSAGE_ADD_MENU_ITEM;
         Data := any_pDataAddMenuItem {| Text := text; Fn := fn |} |};
    recv_returnChan ].

Definition AddMenuSeparator (w : WinTray) : list CallerEvent :=
  [ PostMessage (hwnd w) pWMAPP_MESSAGE 0 0;
    send_messageChan {| Type_ := pMESSAGE_ADD_MENU_SEPARATOR;
                        Data := any_nil |};
    recv_returnChan ].

Definition ShowNotification (w : WinTray) (info infoTitle : string)
  : list CallerEvent :=
  [ PostMessage (hwnd w) pWMAPP_MESSAGE 0 0;
    send_messageChan
      {| Type_ := pMESSAGE_SHOW_NOTIFICATION;
         Data := any_pDataShowNotification
                   {| Info := info; InfoTitle := infoTitle |} |};
    recv_returnChan ].

Definition Close (w : WinTray) : list CallerEvent :=
  [ PostMessage (hwnd w) WM_QUIT 0 0; recv_closedChan ].

(** The five request methods as one type, to speak of sequences of calls. *)
Inductive Op :=
| OpSetIconFromBytes (b : list Z)
| OpSetTip (text : string)
| OpAddMenuItem (text : string) (fn : Callback)
| OpAddMenuSeparator
| OpShowNotification (info infoTitle : string).

Definition call (w : WinTray) (op : Op) : list CallerEvent :=
  match op with
  | OpSetIconFromBytes b => SetIconFromBytes w b
  | OpSetTip text => SetTip w text
  | OpAddMenuItem text fn => AddMenuItem w text fn
  | OpAddMenuSeparator => AddMenuSeparator w
  | OpShowNotification info infoTitle => ShowNotification w info infoTitle
  end.

(** The messages a caller posts to the window, and the requests it hands
    over, in order. *)
Definition posted (es : list CallerEvent) : list MSG :=
  omap (fun e => match e with
                 | PostMessage h m wp lp =>
                   Some {| msg_hwnd := h; message := m;
                           wParam := wp; lParam := lp |}
                 | _ => None
                 end) es.

Definition sent (es : list CallerEvent) : list pMessage :=
  omap (fun e => match e with send_messageChan m => Some m | _ => None end) es.

(** ** Running the actor against its callers *)

(** The state [run] starts from: nothing has happened, and the callers
    will hand over [c]. *)
Definition initial (c : list pMessage) : State :=
  {| menuIds := 0; menuFns := ∅; messageChan := c; trace := [] |}.

Definition final {A} (r : Res A) : State :=
  match r with Ok _ s | Panic s | Block s => s end.

(** [run] with the messages and the requests of [es] coming in. *)
Definition serve (P : Platform) (es : list CallerEvent) : Res unit :=
  run P (posted es) (initial (sent es)).

(** The value a receive on [hwndChan] yields: the one the actor sends. *)
Definition hwnd_sent (t : list Event) : option Z :=
  head (omap (fun e => match e with send_hwndChan h => Some h | _ => None end) t).

(** [New]: start [run] and wait for the window handle.  [None] when the
    handle never comes. *)
Definition New (P : Platform) : option WinTray :=
  match hwnd_sent (trace (final (serve P []))) with
  | Some h => Some {| hwnd := h |}
  | None => None
  end.

(** A tray and a sequence of request calls on it. *)
Definition session (P : Platform) (ops : list Op) : Res unit :=
  match New P with
  | Some w => serve P (concat (call w <$> ops))
  | None => Block (initial [])
  end.

(** The same, followed by [Close]. *)
Definition session_closed (P : Platform) (ops : list Op) : Res unit :=
  match New P with
  | Some w => serve P (concat (call w <$> ops) ++ Close w)
  | None => Block (initial [])
  end.

(** ** What the history shows *)

(** The entries of the popup menu: [AppendMenuW] adds an entry at the
    end of the menu when it succeeds. *)
Inductive MenuEntry :=
| Item (id : Z) (text : list Z)
| Separator
| OtherEntry (uFlags uIDNewItem : Z) (lpNewItem : option (list Z)).

Definition entry (uFlags uIDNewItem : Z) (lpNewItem : option (list Z))
  : MenuEntry :=
  match lpNewItem with
  | Some text => if uFlags =? 0 then Item uIDNewItem text
                 else OtherEntry uFlags uIDNewItem lpNewItem
  | None => if (uFlags =? MF_SEPARATOR) && (uIDNewItem =? 0) then Separator
            else OtherEntry uFlags uIDNewItem lpNewItem
  end.

(** Every append the actor asked for, with the system's verdict. *)
Definition appends (t : list Event) : list (MenuEntry * bool) :=
  omap (fun e => match e with
                 | AppendMenuW _ fl id txt ret =>
                   Some (entry fl id txt, negb (ret =? 0))
                 | _ => None
                 end) t.

Definition menu (t : list Event) : list MenuEntry :=
  fst <$> filter (fun a => snd a = true) (appends t).

(** The identifiers the actor handed to [AppendMenuW] for items. *)
Definition entry_id (e : MenuEntry) : option Z :=
  match e with Item id _ => Some id | _ => None end.

Definition item_ids (t : list Event) : list Z :=
  omap entry_id (appends t).*1.

(** The errors sent back on [returnChan]. *)
Definition responses (t : list Event) : list error :=
  omap (fun e => match e with send_returnChan r => Some r | _ => None end) t.

(** The icon the shell shows: the one of the last accepted
    [NIM_MODIFY] that carried [NIF_ICON]. *)
Definition installed_icon (t : list Event) : option Z :=
  last (omap (fun e => match e with
                       | Shell_NotifyIcon m nid true =>
                         if (m =? NIM_MODIFY) && (UFlags nid =? NIF_ICON)
                         then Some (HIcon nid) else None
                       | _ => None
                       end) t).

(** The tray icon is gone from the shell once a [NIM_DELETE] was sent. *)
Definition icon_removed (t : list Event) : bool :=
  existsb (fun e => match e with
                    | Shell_NotifyIcon m _ _ => m =? NIM_DELETE
                    | _ => false
                    end) t.

(** A platform on which every call succeeds, for examples. *)
Definition win32 : Platform :=
  {| p_Shell_NotifyIcon := fun _ _ _ => true;
     p_AppendMenuW := fun _ _ _ _ _ => (1, 0);
     p_CreateTemp := fun _ => Some "1234.ico";
     p_LoadImage := fun _ _ _ => 77;
     p_GetCursorPos := fun _ => {| X := 10; Y := 20 |};
     p_GetSystemMetrics := fun _ _ => 0;
     p_TrackPopupMenu := fun _ _ _ _ _ _ => 0;
     p_DefWindowProc := fun _ _ _ _ _ => 0;
     p_hasSetThreadDpiAwarenessContext := true;
     p_newIconId := 0;
     p_CreatePopupMenu := fun _ => 7;
     p_GetModuleHandle := fun _ => 1;
     p_CreateWindowEx := fun _ => 42 |}.

(** ** Auxiliary definitions for the statements *)

(** What the loop leaves in the field: the units written so far and the
    source, cut at the last slot and closed with a NUL when they do not
    fit, and the old content behind them when they do. *)
Definition copied (buff : list Z) (k : nat) (src : list Z) : list Z :=
  let full := take k buff ++ src in
  if decide (length full <= length buff)%nat
  then full ++ drop (length full) buff
  else take (length buff - 1) full ++ [0].

(** A zeroed field of [n] units after a text was copied into it. *)
Definition field (n : nat) (text : string) : list Z :=
  take (n - 1) (Utf16.units text) ++
  0 :: replicate (n - S (length (Utf16.units text))) 0.

(** The icon data the shell was asked to apply with [NIM_MODIFY]. *)
Definition notified (t : list Event) : list NOTIFYICONDATA :=
  omap (fun e => match e with
                 | Shell_NotifyIcon m nid _ =>
                   if m =? NIM_MODIFY then Some nid else None
                 | _ => None
                 end) t.

(** A title of exactly [SzInfoTitle_len] characters, and a text with a
    NUL byte in it. *)
Definition title64 : string :=
  "0123456789abcdef0123456789abcdef0123456789abcdef0123456789abcdef".

Definition text_with_nul : string := String "a" (String Ascii.zero "b").

(** The request a method hands over, and the wake-up it posts first. *)
Definition request (op : Op) : pMessage :=
  match op with
  | OpSetIconFromBytes b =>
    {| Type_ := pMESSAGE_SET_ICON_FROM_BYTES; Data := any_bytes b |}
  | OpSetTip text => {| Type_ := pMESSAGE_SET_TIP; Data := any_string text |}
  | OpAddMenuItem text fn =>
    {| Type_ := pMESSAGE_ADD_MENU_ITEM;
       Data := any_pDataAddMenuItem {| Text := text; Fn := fn |} |}
  | OpAddMenuSeparator =>
    {| Type_ := pMESSAGE_ADD_MENU_SEPARATOR; Data := any_nil |}
  | OpShowNotification info infoTitle =>
    {| Type_ := pMESSAGE_SHOW_NOTIFICATION;
       Data := any_pDataShowNotification
                 {| Info := info; InfoTitle := infoTitle |} |}
  end.

Definition wakeup (w : WinTray) : MSG :=
  {| msg_hwnd := hwnd w; message := pWMAPP_MESSAGE; wParam := 0; lParam := 0 |}.

Definition quit (w : WinTray) : MSG :=
  {| msg_hwnd := hwnd w; message := WM_QUIT; wParam := 0; lParam := 0 |}.

(** The texts of a call all convert to UTF-16. *)
Definition converts (op : Op) : Prop :=
  match op with
  | OpSetTip text | OpAddMenuItem text _ => 0 ∉ Utf16.bytes text
  | OpShowNotification info infoTitle =>
    (0 ∉ Utf16.bytes info) /\ (0 ∉ Utf16.bytes infoTitle)
  | OpSetIconFromBytes _ | OpAddMenuSeparator => True
  end.

(** The state of the actor when [run] reaches its loop, the identifier
    and the menu it has created by then, and what the deferred calls add
    when the loop is left. *)
Definition started (P : Platform) (c : list pMessage) : State :=
  final (run P [] (initial c)).

Definition the_iconId (P : Platform) : Z := uint32 (p_newIconId P + 1).

Definition the_hmenu (P : Platform) : Z :=
  p_CreatePopupMenu P
    ([LockOSThread] ++
     (if p_hasSetThreadDpiAwarenessContext P
      then [SetThreadDpiAwarenessContext DPI_AWARENESS_CONTEXT_SYSTEM_AWARE]
      else []) ++
     [newIconId_Add (the_iconId P)]).

Definition finish (r : Res unit) : Res unit :=
  match r with
  | Ok a s => Ok a (log close_closedChan (log UnlockOSThread s))
  | Panic s => Panic (log close_closedChan (log UnlockOSThread s))
  | Block s => Block s
  end.

(** The two menu methods, to speak of sequences of menu calls. *)
Inductive MenuCall :=
| CallAddMenuItem (text : string) (fn : Callback)
| CallAddMenuSeparator.

Definition menu_op (c : MenuCall) : Op :=
  match c with
  | CallAddMenuItem text fn => OpAddMenuItem text fn
  | CallAddMenuSeparator => OpAddMenuSeparator
  end.

Definition is_item (c : MenuCall) : bool :=
  match c with CallAddMenuItem _ _ => true | CallAddMenuSeparator => false end.

Definition items (cs : list MenuCall) : nat := length (filter is_item cs).

(** The menu as the specification describes it: one entry per call, in
    call order; items numbered upwards from [next], separators without a
    number. *)
Fixpoint spec_menu (next : Z) (cs : list MenuCall) : list MenuEntry :=
  match cs with
  | [] => []
  | CallAddMenuItem text _ :: cs' =>
    Item next (Utf16.units text ++ [0]) :: spec_menu (next + 1) cs'
  | CallAddMenuSeparator :: cs' => Separator :: spec_menu next cs'
  end.

(** The history when the loop starts: the start-up calls, the handling
    of [WM_CREATE] when the window is created, and the hand-over of the
    window handle. *)
Definition startup (P : Platform) : list Event :=
  [LockOSThread] ++
  (if p_hasSetThreadDpiAwarenessContext P
   then [SetThreadDpiAwarenessContext DPI_AWARENESS_CONTEXT_SYSTEM_AWARE]
   else []) ++
  [newIconId_Add (the_iconId P); CreatePopupMenu (the_hmenu P)].

Definition registered (P : Platform) : list Event :=
  startup P ++
  [GetModuleHandle (p_GetModuleHandle P (startup P)); RegisterClassEx].

Definition the_hwnd (P : Platform) : Z := p_CreateWindowEx P (registered P).

Definition on_create (P : Platform) : list Event :=
  if the_hwnd P =? 0 then []
  else
    let add := nid_lit 0 (the_hwnd P) (the_iconId P) NIF_MESSAGE
                       pWMAPP_NOTIFYCALLBACK 0 0 in
    let ver := nid_lit 0 (the_hwnd P) (the_iconId P) 0 0 0
                       NOTIFYICON_VERSION_4 in
    let e1 := Shell_NotifyIcon NIM_ADD add
                (p_Shell_NotifyIcon P (registered P) NIM_ADD add) in
    [e1;
     Shell_NotifyIcon NIM_SETVERSION ver
       (p_Shell_NotifyIcon P (registered P ++ [e1]) NIM_SETVERSION ver)].

Definition prelude (P : Platform) : list Event :=
  registered P ++ on_create P ++
  [CreateWindowEx (the_hwnd P); send_hwndChan (the_hwnd P); close_hwndChan].

(** The events of the message loop. *)
Definition is_loop_event (e : Event) : bool :=
  match e with
  | GetMessage _ _ | TranslateMessage _ | DispatchMessage _ => true
  | _ => false
  end.

(** The same sequence with the numbering of the code: the counter is a
    [uint32] and wraps. *)
Fixpoint wrapped_menu (next : Z) (cs : list MenuCall) : list MenuEntry :=
  match cs with
  | [] => []
  | CallAddMenuItem text _ :: cs' =>
    Item next (Utf16.units text ++ [0]) :: wrapped_menu (uint32 (next + 1)) cs'
  | CallAddMenuSeparator :: cs' => Separator :: wrapped_menu next cs'
  end.

(** Callbacks and call sequences for the examples. *)
Definition cb_print : Callback := {| cb_name := "print"; cb_returns := true |}.
Definition cb_quit : Callback := {| cb_name := "quit"; cb_returns := true |}.
Definition cb_about : Callback := {| cb_name := "about"; cb_returns := true |}.

(** The scenario of the specification. *)
Definition scenario : list MenuCall :=
  [CallAddMenuItem "Print" cb_print; CallAddMenuItem "Quit" cb_quit;
   CallAddMenuSeparator; CallAddMenuItem "About" cb_about].

(** As many items as the counter has values from 100 up, and one more. *)
Definition one_too_many : list MenuCall :=
  replicate (Z.to_nat 4294967197) (CallAddMenuItem "a" cb_print).

(** Number of attempts to create a temporary file, and of removals. *)
Definition is_CreateTemp (e : Event) : bool :=
  match e with CreateTemp _ => true | _ => false end.
Definition is_Remove (e : Event) : bool :=
  match e with Remove _ => true | _ => false end.

(** A platform that cannot load any image, one that refuses to change
    the icon, and one that refuses every menu entry. *)
Definition no_image : Platform :=
  {| p_Shell_NotifyIcon := p_Shell_NotifyIcon win32;
     p_AppendMenuW := p_AppendMenuW win32;
     p_CreateTemp := p_CreateTemp win32;
     p_LoadImage := fun _ _ _ => 0;
     p_GetCursorPos := p_GetCursorPos win32;
     p_GetSystemMetrics := p_GetSystemMetrics win32;
     p_TrackPopupMenu := p_TrackPopupMenu win32;
     p_DefWindowProc := p_DefWindowProc win32;
     p_hasSetThreadDpiAwarenessContext := true;
     p_newIconId := 0;
     p_CreatePopupMenu := p_CreatePopupMenu win32;
     p_GetModuleHandle := p_GetModuleHandle win32;
     p_CreateWindowEx := p_CreateWindowEx win32 |}.

Definition no_modify : Platform :=
  {| p_Shell_NotifyIcon := fun _ m _ => negb (m =? NIM_MODIFY);
     p_AppendMenuW := p_AppendMenuW win32;
     p_CreateTemp := p_CreateTemp win32;
     p_LoadImage := p_LoadImage win32;
     p_GetCursorPos := p_GetCursorPos win32;
     p_GetSystemMetrics := p_GetSystemMetrics win32;
     p_TrackPopupMenu := p_TrackPopupMenu win32;
     p_DefWindowProc := p_DefWindowProc win32;
     p_hasSetThreadDpiAwarenessContext := true;
     p_newIconId := 0;
     p_CreatePopupMenu := p_CreatePopupMenu win32;
     p_GetModuleHandle := p_GetModuleHandle win32;
     p_CreateWindowEx := p_CreateWindowEx win32 |}.

Definition no_menu : Platform :=
  {| p_Shell_NotifyIcon := p_Shell_NotifyIcon win32;
     p_AppendMenuW := fun _ _ _ _ _ => (0, 5);
     p_CreateTemp := p_CreateTemp win32;
     p_LoadImage := p_LoadImage win32;
     p_GetCursorPos := p_GetCursorPos win32;
     p_GetSystemMetrics := p_GetSystemMetrics win32;
     p_TrackPopupMenu := p_TrackPopupMenu win32;
     p_DefWindowProc := p_DefWindowProc win32;
     p_hasSetThreadDpiAwarenessContext := true;
     p_newIconId := 0;
     p_CreatePopupMenu := p_CreatePopupMenu win32;
     p_GetModuleHandle := p_GetModuleHandle win32;
     p_CreateWindowEx := p_CreateWindowEx win32 |}.

(** An image for the examples, and the request that carries it. *)
Definition some_ico : list Z := [0; 0; 1; 0].

(** The counter on its last value, with two items waiting. *)
Definition at_last_id : State :=
  {| menuIds := 4294967295; menuFns := ∅;
     messageChan := [request (OpAddMenuItem "Print" cb_print);
                     request (OpAddMenuItem "Quit" cb_quit)];
     trace := [] |}.

(** The items that use up the identifiers below [2^32 - 1]. *)
Definition up_to_last_id : list MenuCall :=
  replicate (Z.to_nat 4294967195) (CallAddMenuItem "a" cb_print).

(** The events the message loop and the window procedure can add to the
    history while the loop runs: everything except the start-up calls, the
    hand-over of the window handle, the deferred calls, a direct call of a
    callback, and the removal of the tray icon. *)
Definition pump_event (e : Event) : bool :=
  match e with
  | Shell_NotifyIcon m _ _ => negb (m =? NIM_DELETE)
  | AppendMenuW _ _ _ _ _ | CreateTemp _ | Copy _ _ | FileClose _ | Remove _
  | LoadImage _ _ _ _ | GetCursorPos _ | SetForegroundWindow _
  | GetSystemMetrics _ _ | TrackPopupMenu _ _ _ _ _ _ | go _
  | recv_messageChan _ | send_returnChan _ | DefWindowProc _ _ _ _ _
  | GetMessage _ _ | TranslateMessage _ | DispatchMessage _ => true
  | _ => false
  end.

(** [m] only adds events that satisfy [Q] to the history. *)
Definition adds {A} (Q : Event -> bool) (m : M A) : Prop :=
  forall s : State,
    exists new : list Event,
      trace (final (m s)) = trace s ++ new /\ forallb Q new = true.

(** ** The caller and the actor side by side *)

(** A step of the whole program: one of the caller, or one of the actor. *)
Inductive Step :=
| by_caller (e : CallerEvent)
| by_actor (e : Event).

Definition is_hwndChan_event (e : Event) : bool :=
  match e with send_hwndChan _ | close_hwndChan => true | _ => false end.

(** The executions of a caller with program [cs] next to an actor whose
    remaining history is [es], as far as [hwndChan] orders them.  The
    channel has no buffer: a send and a receive happen together, and a
    receive without a send has to wait until the channel is closed.  The
    flag tells whether the channel is closed.  An execution may stop
    anywhere. *)
Inductive run_together :
  bool -> list CallerEvent -> list Event -> list Step -> Prop :=
| together_stop closed cs es : run_together closed cs es []
| together_actor closed cs e es x :
    is_hwndChan_event e = false ->
    run_together closed cs es x ->
    run_together closed cs (e :: es) (by_actor e :: x)
| together_caller closed c cs es x :
    c <> recv_hwndChan ->
    run_together closed cs es x ->
    run_together closed (c :: cs) es (by_caller c :: x)
| together_hand_over cs h es x :
    run_together false cs es x ->
    run_together false (recv_hwndChan :: cs) (send_hwndChan h :: es)
                 (by_actor (send_hwndChan h) :: by_caller recv_hwndChan :: x)
| together_close cs es x :
    run_together true cs es x ->
    run_together false cs (close_hwndChan :: es)
                 (by_actor close_hwndChan :: x)
| together_recv_closed cs es x :
    run_together true cs es x ->
    run_together true (recv_hwndChan :: cs) es
                 (by_caller recv_hwndChan :: x).

(** Before the window handle is handed over: the caller has done nothing
    but start the actor, and the actor has not touched its message loop. *)
Definition before_hand_over (st : Step) : Prop :=
  match st with
  | by_caller c => c = go_run
  | by_actor e => is_loop_event e = false
  end.

(** [New] as the caller runs it. *)
Definition New_events : list CallerEvent := [go_run; recv_hwndChan].

(** A platform on which the user picks the entry with identifier 100
    from the popup menu, a callback that never returns, an actor that has
    it registered under 100 with a tooltip request waiting, and the
    activation message of each version of the window procedure. *)
Definition picks_100 : Platform :=
  {| p_Shell_NotifyIcon := p_Shell_NotifyIcon win32;
     p_AppendMenuW := p_AppendMenuW win32;
     p_CreateTemp := p_CreateTemp win32;
     p_LoadImage := p_LoadImage win32;
     p_GetCursorPos := p_GetCursorPos win32;
     p_GetSystemMetrics := p_GetSystemMetrics win32;
     p_TrackPopupMenu := fun _ _ _ _ _ _ => 100;
     p_DefWindowProc := p_DefWindowProc win32;
     p_hasSetThreadDpiAwarenessContext := true;
     p_newIconId := 0;
     p_CreatePopupMenu := p_CreatePopupMenu win32;
     p_GetModuleHandle := p_GetModuleHandle win32;
     p_CreateWindowEx := p_CreateWindowEx win32 |}.

Definition shell_96dpi : Legacy.Extra :=
  {| Legacy.p_GetShellWindow := fun _ => 9;
     Legacy.p_GetDpiForWindow := fun _ _ => 96;
     Legacy.p_scaled := fun _ v => v |}.

Definition cb_blocks : Callback :=
  {| cb_name := "wait"; cb_returns := false |}.

Definition with_blocking_item (c : list pMessage) : State :=
  {| menuIds := 101; menuFns := {[ 100 := cb_blocks ]};
     messageChan := c; trace := [] |}.

Definition activation : MSG :=
  {| msg_hwnd := 42; message := pWMAPP_NOTIFYCALLBACK; wParam := 0;
     lParam := WM_RBUTTONUP |}.

Definition legacy_activation : MSG :=
  {| msg_hwnd := 42; message := Legacy.pWMAPP_NOTIFYCALLBACK; wParam := 0;
     lParam := WM_CONTEXTMENU |}.

Definition legacy_wakeup : MSG :=
  {| msg_hwnd := 42; message := Legacy.pWMAPP_MESSAGE; wParam := 0;
     lParam := 0 |}.

Definition legacy_SetTip (text : string) : pMessage :=
  {| Type_ := Legacy.pMESSAGE_SET_TIP; Data := any_string text |}.

(** The callbacks the actor called itself, and those it started. *)
Definition invoked (t : list Event) : list Callback :=
  omap (fun e => match e with invoke fn => Some fn | _ => None end) t.
Definition started_go (t : list Event) : list Callback :=
  omap (fun e => match e with go fn => Some fn | _ => None end) t.
Definition received (t : list Event) : list pMessage :=
  omap (fun e => match e with recv_messageChan m => Some m | _ => None end) t.

(** ** The request protocol *)

(** The calls into the system that belong to a request. *)
Definition native_kind (op : Op) (e : Event) : bool :=
  match op, e with
  | OpSetIconFromBytes _,
    (CreateTemp _ | Copy _ _ | FileClose _ | LoadImage _ _ _ _ | Remove _) => true
  | OpSetIconFromBytes _, Shell_NotifyIcon m nid _ =>
    (m =? NIM_MODIFY) && (UFlags nid =? NIF_ICON)
  | OpSetTip _, Shell_NotifyIcon m nid _ =>
    (m =? NIM_MODIFY) && (UFlags nid =? Z.lor NIF_TIP NIF_SHOWTIP)
  | OpShowNotification _ _, Shell_NotifyIcon m nid _ =>
    (m =? NIM_MODIFY) && (UFlags nid =? NIF_INFO)
  | OpAddMenuItem _ _, AppendMenuW _ fl _ (Some _) _ => fl =? 0
  | OpAddMenuSeparator, AppendMenuW _ fl id None _ =>
    (fl =? MF_SEPARATOR) && (id =? 0)
  | _, _ => false
  end.

(** What the actor does for one call: it retrieves the wake-up,
    dispatches it, takes the request, makes the calls [native] and sends
    [e] back. *)
Definition round (w : WinTray) (op : Op) (r : list Event * error)
  : list Event :=
  [GetMessage (wakeup w) TRUE; TranslateMessage (wakeup w);
   DispatchMessage (wakeup w); recv_messageChan (request op)] ++
  r.1 ++ [send_returnChan r.2].

Definition rounds (w : WinTray) (ops : list Op)
    (rs : list (list Event * error)) : list Event :=
  concat (zip_with (round w) ops rs).

(** The turn-taking of the loop and the two channels.  [Idle]: nothing
    is in flight and the loop is about to wait; [Woken]: a message was
    retrieved and no request taken yet; [InFlight]: one request taken and
    not answered.  A history follows the protocol when each retrieved
    message is followed by one receive and then one send before the next
    message is retrieved. *)
Inductive Phase := Idle | Woken | InFlight.

Fixpoint protocol (ph : Phase) (t : list Event) : bool :=
  match t with
  | [] => match ph with Idle => true | _ => false end
  | GetMessage _ _ :: t' =>
    match ph with Idle => protocol Woken t' | _ => false end
  | recv_messageChan _ :: t' =>
    match ph with Woken => protocol InFlight t' | _ => false end
  | send_returnChan _ :: t' =>
    match ph with InFlight => protocol Idle t' | _ => false end
  | _ :: t' => protocol ph t'
  end.

Definition is_protocol_event (e : Event) : bool :=
  match e with
  | GetMessage _ _ | recv_messageChan _ | send_returnChan _ => true
  | _ => false
  end.

(** One call of each kind. *)
Definition one_of_each : list Op :=
  [OpSetIconFromBytes some_ico; OpSetTip "MyApp Is Running";
   OpAddMenuItem "Print" cb_print; OpAddMenuSeparator;
   OpShowNotification "This is a test." "Title"].

(** A text given by its bytes. *)
Definition of_bytes (bs : list Z) : string :=
  string_of_list_ascii ((fun b => ascii_of_N (Z.to_N b)) <$> bs).

(** ** Auxiliary definitions for further properties *)

(** The messages the window procedure has no case for: anything but
    [WM_CREATE], [WM_QUIT], a request, and the release of the right
    mouse button over the icon. *)
Definition unhandled (m : MSG) : bool :=
  negb (message m =? WM_CREATE) && negb (message m =? WM_QUIT) &&
  negb (message m =? pWMAPP_MESSAGE) &&
  negb ((message m =? pWMAPP_NOTIFYCALLBACK) &&
        (LOWORD (uint32 (lParam m)) =? WM_RBUTTONUP)).

(** What the loop does with such a message. *)
Definition passed_on (m : MSG) (ret : Z) : list Event :=
  [GetMessage m TRUE; TranslateMessage m; DispatchMessage m;
   DefWindowProc (msg_hwnd m) (message m) (wParam m) (lParam m) ret].

(** An actor with the counter at its start and an item waiting whose
    text has a NUL byte. *)
Definition nul_item_waiting : State :=
  {| menuIds := 100; menuFns := ∅;
     messageChan := [request (OpAddMenuItem text_with_nul cb_print)];
     trace := [] |}.

(** The callbacks of a sequence of menu calls, one per item, in call
    order. *)
Definition callback_of (c : MenuCall) : option Callback :=
  match c with
  | CallAddMenuItem _ fn => Some fn
  | CallAddMenuSeparator => None
  end.

Definition callbacks (cs : list MenuCall) : list Callback :=
  omap callback_of cs.


(** ** The change of icon of the second version
    ([src/unnamed/part_002])

    That version of [setIcon] returns nothing: it does not look at the
    handle [LoadImage] gives, nor at the verdict of the shell. *)

Module Interim.

Section Actor.
Context (P : Platform).

Definition setIcon (hwnd iconId : Z) (b : list Z) : M unit :=
  f ← os_CreateTemp P;
  match f with
  | None => mret tt
  | Some name =>
    defer (emit (Remove name))
      (emit (Copy name b);;
       emit (FileClose name);;
       lpName ← must (mustUTF16PtrFromString name);
       h ← syscall (fun h => p_LoadImage P h lpName b)
                   (LoadImage lpName IMAGE_ICON
                              (Z.lor LR_DEFAULTSIZE LR_LOADFROMFILE));
       shell_NotifyIcon P NIM_MODIFY (nid_lit 0 hwnd iconId NIF_ICON 0 h 0);;
       mret tt)
  end.

End Actor.

End Interim.

(** ** Invariants of a run *)

(** The events that create or remove a temporary file. *)
Definition is_file_event (e : Event) : bool :=
  is_CreateTemp e || is_Remove e.

(** [m] leaves the temporary files as it found them. *)
Definition keeps_files {A} (m : M A) : Prop :=
  forall s : State, live_files (trace (final (m s))) = live_files (trace s).

(** Every answer on [returnChan] is for a request that was taken from
    [messageChan] and not answered yet; [pending] tells whether there is
    such a request when the history starts. *)
Fixpoint answers_ok (pending : bool) (t : list Event) : bool :=
  match t with
  | [] => true
  | recv_messageChan _ :: t' => answers_ok true t'
  | send_returnChan _ :: t' => pending && answers_ok false t'
  | _ :: t' => answers_ok pending t'
  end.

(** [m] only adds answers that [answers_ok] accepts, when it starts with
    a request pending or not as [pending] says. *)
Definition answers {A} (pending : bool) (m : M A) : Prop :=
  forall s : State,
    exists new : list Event,
      trace (final (m s)) = trace s ++ new /\ answers_ok pending new = true.

(** The events other than those of the two request channels. *)
Definition off_channel (e : Event) : bool :=
  match e with
  | recv_messageChan _ | send_returnChan _ => false
  | _ => true
  end.

(** The events the first version of the window procedure can add: all
    but an answer on [returnChan] and a callback started with [go], for
    which it has no code. *)
Definition legacy_event (e : Event) : bool :=
  match e with
  | send_returnChan _ | go _ => false
  | _ => true
  end.

(** * Properties *)

(** ** UTF-16 conversion: no NUL inside, never longer than the bytes *)

(** Turn the boolean comparisons in the context into propositions. *)
Ltac bool_to_prop :=
  repeat match goal with
         | H : _ && _ = true |- _ => apply andb_prop in H as [? ?]
         | H : _ || _ = false |- _ => apply orb_false_elim in H as [? ?]
         | H : negb _ = false |- _ => apply negb_false_iff in H
         | H : negb _ = true |- _ => apply negb_true_iff in H
         | H : (_ <=? _) = true |- _ => apply Z.leb_le in H
         | H : (_ <=? _) = false |- _ => apply Z.leb_gt in H
         | H : (_ <? _) = true |- _ => apply Z.ltb_lt in H
         | H : (_ <? _) = false |- _ => apply Z.ltb_ge in H
         | H : (_ =? _) = true |- _ => apply Z.eqb_eq in H
         | H : (_ =? _) = false |- _ => apply Z.eqb_neq in H
         end.

Module Utf16Facts.
Import Utf16.

Lemma DecodeRune_nonzero (b0 : Z) (rest : list Z) :
  b0 ≠ 0 -> (DecodeRune b0 rest).1 ≠ 0.
Proof.
  intros Hb0. unfold DecodeRune, first, between, RuneError.
  repeat (case_match; simplify_eq /=; try done; try lia);
    rewrite ?Z.lor_eq_0_iff, ?Z.shiftl_eq_0_iff by lia;
    bool_to_prop;
    change 0x1F with (Z.ones 5); change 0x0F with (Z.ones 4);
    change 0x07 with (Z.ones 3); change 0x3F with (Z.ones 6);
    rewrite ?Z.land_ones by lia;
    change (2 ^ 3) with 8; change (2 ^ 4) with 16;
    change (2 ^ 5) with 32; change (2 ^ 6) with 64;
    intros ?; Z.div_mod_to_equations; lia.
Qed.

Lemma DecodeRune_size (b0 : Z) (rest : list Z) :
  (1 <= (DecodeRune b0 rest).2 <= S (length rest))%nat.
Proof.
  unfold DecodeRune. repeat (case_match; simpl in *; try lia).
Qed.

Lemma EncodeRune_nonzero (r : Z) : r ≠ 0 -> 0 ∉ EncodeRune r.
Proof.
  intros Hr. unfold EncodeRune, RuneError.
  pose proof (Z.land_nonneg (Z.shiftr (r - 0x10000) 10) 0x3FF).
  pose proof (Z.land_nonneg (r - 0x10000) 0x3FF).
  repeat case_match; rewrite ?elem_of_cons, elem_of_nil; lia.
Qed.

Lemma EncodeRune_length (r : Z) : (length (EncodeRune r) <= 2)%nat.
Proof. unfold EncodeRune. repeat case_match; simpl; lia. Qed.

Lemma EncodeRune_length_1 (b0 : Z) (rest : list Z) :
  (DecodeRune b0 rest).2 = 1%nat ->
  length (EncodeRune (DecodeRune b0 rest).1) = 1%nat.
Proof.
  unfold DecodeRune, first, between, RuneError, EncodeRune.
  repeat (case_match; simplify_eq /=; try done; try lia).
Qed.

Lemma runes_from_nonzero (steps : nat) (s : list Z) :
  0 ∉ s -> 0 ∉ runes_from steps s.
Proof.
  revert s. induction steps as [|steps IH]; intros s Hs; simpl.
  - destruct s; apply not_elem_of_nil.
  - destruct s as [|b0 rest]; [apply not_elem_of_nil|].
    destruct (DecodeRune b0 rest) as [r sz] eqn:Hd.
    rewrite not_elem_of_cons. split.
    + pose proof (DecodeRune_nonzero b0 rest) as Hnz.
      rewrite Hd in Hnz. simpl in Hnz. intros Heq. apply Hnz; [|done].
      intros ->. apply Hs. left.
    + apply IH. intros Hin. apply Hs.
      rewrite <- (take_drop sz (b0 :: rest)), elem_of_app. by right.
Qed.

Lemma Encode_nonzero (rs : list Z) : 0 ∉ rs -> 0 ∉ Encode rs.
Proof.
  unfold Encode. induction rs as [|r rs IH]; simpl; intros Hrs.
  - apply not_elem_of_nil.
  - rewrite not_elem_of_cons in Hrs. destruct Hrs as [Hr Hrs].
    rewrite elem_of_app. intros [Hin|Hin].
    + by apply (EncodeRune_nonzero r).
    + by apply IH.
Qed.

Lemma units_nonzero (s : string) : 0 ∉ bytes s -> 0 ∉ units s.
Proof. intros. by apply Encode_nonzero, runes_from_nonzero. Qed.

(** A text never has more code units than bytes. *)
Lemma runes_from_length (steps : nat) (s : list Z) :
  (length (Encode (runes_from steps s)) <= length s)%nat.
Proof.
  revert s. induction steps as [|steps IH]; intros s; simpl; [lia|].
  destruct s as [|b0 rest]; simpl; [lia|].
  destruct (DecodeRune b0 rest) as [r sz] eqn:Hd.
  unfold Encode in *. rewrite fmap_cons, concat_cons, length_app.
  specialize (IH (drop sz (b0 :: rest))).
  rewrite length_drop in IH. simpl in IH.
  pose proof (DecodeRune_size b0 rest) as Hsz.
  pose proof (EncodeRune_length r) as Hlen.
  pose proof (EncodeRune_length_1 b0 rest) as Hone.
  rewrite Hd in Hsz, Hone. simpl in Hsz, Hone.
  destruct (decide (sz = 1%nat)) as [->|]; [rewrite Hone by done|]; lia.
Qed.

Lemma units_length (s : string) : (length (units s) <= length (bytes s))%nat.
Proof. apply runes_from_length. Qed.

Lemma UTF16FromString_Some (s : string) (u : list Z) :
  UTF16FromString s = Some u <-> (0 ∉ bytes s) /\ u = units s ++ [0].
Proof.
  unfold UTF16FromString. case_bool_decide; split.
  - done.
  - by intros [? _].
  - intros [= <-]. done.
  - by intros [_ ->].
Qed.

End Utf16Facts.

(** A sequence of two bytes is one code unit, a sequence of four bytes is
    a surrogate pair, and a stray continuation byte is replaced. *)
Example units_two_byte : Utf16.units (of_bytes [0xC3; 0xA9]) = [0xE9].
Proof. reflexivity. Qed.

Example units_four_byte :
  Utf16.units (of_bytes [0xF0; 0x9F; 0x98; 0x80]) = [0xD83D; 0xDE00].
Proof. reflexivity. Qed.

Example units_stray : Utf16.units (of_bytes [0x61; 0x80]) = [0x61; 0xFFFD].
Proof. reflexivity. Qed.

(** ** [copyToUint16Buffer] *)

Example copy_fits :
  copyToUint16Buffer (replicate 6 0) "tray" = Some [116; 114; 97; 121; 0; 0].
Proof. reflexivity. Qed.

Example copy_truncates :
  copyToUint16Buffer (replicate 4 7) "tray" = Some [116; 114; 97; 0].
Proof. reflexivity. Qed.

(** A field without any unit cannot take the terminator: the write at
    index [-1] panics.  A text with a NUL byte panics before any write. *)
Example copy_no_room : copyToUint16Buffer [] "tray" = None.
Proof. reflexivity. Qed.

Example copy_nul : copyToUint16Buffer (replicate 4 7) text_with_nul = None.
Proof. reflexivity. Qed.

Lemma index_set_Some (buff : list Z) (k : nat) (v : Z) :
  (k < length buff)%nat ->
  index_set buff (Z.of_nat k) v = Some (<[k := v]> buff).
Proof.
  intros Hk. unfold index_set.
  rewrite Nat2Z.id.
  destruct (0 <=? Z.of_nat k) eqn:H0; [|lia].
  destruct (Z.of_nat k <? Z.of_nat (length buff)) eqn:H1; [done|lia].
Qed.

Lemma copy_loop_copied (src : list Z) :
  forall (buff : list Z) (k : nat),
    (1 <= length buff)%nat -> (k <= length buff)%nat ->
    copy_loop buff (Z.of_nat k) src = Some (copied buff k src).
Proof.
  induction src as [|v src IH]; intros buff k Hlen Hk; simpl.
  - unfold copied. rewrite app_nil_r, length_take_le by done.
    rewrite decide_True by done. by rewrite take_drop.
  - destruct (Z.of_nat k =? Z.of_nat (length buff)) eqn:Heq; bool_to_prop.
    + apply Nat2Z.inj in Heq as ->.
      replace (Z.of_nat (length buff) - 1) with (Z.of_nat (length buff - 1))
        by lia.
      rewrite index_set_Some by lia. f_equal.
      unfold copied. rewrite firstn_all, length_app. simpl.
      rewrite decide_False by lia.
      rewrite take_app_le by lia.
      rewrite insert_take_drop by lia.
      replace (S (length buff - 1)) with (length buff) by lia.
      by rewrite drop_all.
    + assert (k < length buff)%nat as Hlt by lia.
      rewrite index_set_Some by done.
      replace (Z.of_nat k + 1) with (Z.of_nat (S k)) by lia.
      rewrite IH by (rewrite length_insert; lia). f_equal.
      unfold copied. rewrite length_insert.
      destruct (lookup_lt_is_Some_2 (<[k:=v]> buff) k) as [x Hx];
        [rewrite length_insert; lia|].
      rewrite (take_S_r _ _ x Hx).
      rewrite list_lookup_insert_eq in Hx by done. simplify_eq.
      rewrite take_insert_ge by lia.
      rewrite <- app_assoc. simpl.
      case_decide; [|done].
      rewrite drop_insert_lt; [done|].
      rewrite length_app, length_take_le by lia. simpl. lia.
Qed.

(** The outcome of [copyToUint16Buffer] on a field of at least one unit:
    it never panics, keeps the length of the field, and leaves the first
    [length buff - 1] units of the text followed by a NUL, then whatever
    was behind. *)
Lemma copyToUint16Buffer_Some (buff : list Z) (text : string) :
  (1 <= length buff)%nat -> 0 ∉ Utf16.bytes text ->
  copyToUint16Buffer buff text =
    Some (take (length buff - 1) (Utf16.units text) ++ [0] ++
          drop (S (length (Utf16.units text))) buff).
Proof.
  intros Hlen Hnul. unfold copyToUint16Buffer, mustUTF16FromString.
  destruct (Utf16.UTF16FromString text) as [src|] eqn:Hsrc.
  2: { unfold Utf16.UTF16FromString in Hsrc. by rewrite bool_decide_false in Hsrc. }
  apply Utf16Facts.UTF16FromString_Some in Hsrc as [_ ->].
  rewrite (copy_loop_copied _ buff 0) by lia. f_equal.
  unfold copied. simpl. rewrite length_app. simpl.
  case_decide.
  - rewrite take_ge by lia. rewrite <- app_assoc. simpl.
    by replace (length (Utf16.units text) + 1)%nat
      with (S (length (Utf16.units text))) by lia.
  - rewrite take_app_le by lia. rewrite drop_ge by lia. done.
Qed.

Lemma copyToUint16Buffer_None (buff : list Z) (text : string) :
  0 ∈ Utf16.bytes text -> copyToUint16Buffer buff text = None.
Proof.
  intros Hnul. unfold copyToUint16Buffer, mustUTF16FromString,
    Utf16.UTF16FromString. by rewrite bool_decide_true.
Qed.

Lemma cstring_app_nul (u rest : list Z) :
  0 ∉ u -> cstring (u ++ 0 :: rest) = u.
Proof.
  induction u as [|x u IH]; simpl; intros Hu; [done|].
  rewrite not_elem_of_cons in Hu. destruct Hu as [Hx Hu].
  destruct (x =? 0) eqn:Heq; bool_to_prop; [done|].
  by rewrite IH.
Qed.

Lemma cstring_prefix (buff : list Z) : cstring buff `prefix_of` buff.
Proof.
  induction buff as [|x buff IH]; simpl; [done|].
  destruct (x =? 0); [apply prefix_nil|by apply prefix_cons].
Qed.

Lemma cstring_nonzero (buff : list Z) : 0 ∉ cstring buff.
Proof.
  induction buff as [|x buff IH]; simpl; [apply not_elem_of_nil|].
  destruct (x =? 0) eqn:Heq; bool_to_prop; [apply not_elem_of_nil|].
  rewrite not_elem_of_cons. done.
Qed.




(** ** The text fields of [setTip] and [showNotification] *)

Lemma bytes_length (s : string) : length (Utf16.bytes s) = String.length s.
Proof.
  unfold Utf16.bytes. rewrite length_fmap.
  induction s as [|c s IH]; simpl; [done|]. by rewrite IH.
Qed.

Lemma copy_zero_field (n : nat) (text : string) :
  (1 <= n)%nat -> 0 ∉ Utf16.bytes text ->
  copyToUint16Buffer (replicate n 0) text = Some (field n text).
Proof.
  intros Hn Hnul.
  rewrite copyToUint16Buffer_Some by (rewrite ?length_replicate; done).
  by rewrite length_replicate, drop_replicate.
Qed.

Lemma field_length (n : nat) (text : string) :
  (1 <= n)%nat -> length (field n text) = n.
Proof.
  intros Hn. unfold field. rewrite length_app, length_take. simpl.
  rewrite length_replicate. lia.
Qed.

Lemma field_cstring (n : nat) (text : string) :
  0 ∉ Utf16.bytes text ->
  cstring (field n text) = take (n - 1) (Utf16.units text).
Proof.
  intros Hnul. unfold field. apply cstring_app_nul.
  intros Hin. apply (Utf16Facts.units_nonzero text Hnul).
  rewrite <- (take_drop (n - 1) (Utf16.units text)).
  apply elem_of_app. by left.
Qed.

Lemma field_roundtrip (n : nat) (text : string) :
  0 ∉ Utf16.bytes text -> (length (Utf16.units text) < n)%nat ->
  cstring (field n text) = Utf16.units text.
Proof. intros Hnul Hlt. rewrite field_cstring by done. apply take_ge. lia. Qed.

Lemma setTip_Ok (P : Platform) (hwnd iconId : Z) (text : string) (s : State) :
  0 ∉ Utf16.bytes text ->
  let nid := set_SzTip (field SzTip_len text)
               (nid_lit sizeof_NOTIFYICONDATA hwnd iconId
                        (Z.lor NIF_TIP NIF_SHOWTIP) 0 0 0) in
  let ok := p_Shell_NotifyIcon P (trace s) NIM_MODIFY nid in
  setTip P hwnd iconId text s =
    Ok (if ok then None else Some (errors_New "unable to change tooltip"))
       (log (Shell_NotifyIcon NIM_MODIFY nid ok) s).
Proof.
  intros Hnul nid ok. unfold setTip.
  change (SzTip (nid_lit _ _ _ _ _ _ _)) with (replicate SzTip_len 0).
  rewrite copy_zero_field by (done || (unfold SzTip_len; lia)).
  unfold must, shell_NotifyIcon, syscall, mbind, M_bind, mret, M_ret.
  fold nid. fold ok. by destruct ok.
Qed.

Lemma setTip_Panic (P : Platform) (hwnd iconId : Z) (text : string) (s : State) :
  0 ∈ Utf16.bytes text -> setTip P hwnd iconId text s = Panic s.
Proof.
  intros Hnul. unfold setTip. by rewrite copyToUint16Buffer_None.
Qed.

Lemma showNotification_Ok (P : Platform) (hwnd iconId : Z)
    (info infoTitle : string) (s : State) :
  0 ∉ Utf16.bytes info -> 0 ∉ Utf16.bytes infoTitle ->
  let nid := set_SzInfoTitle (field SzInfoTitle_len infoTitle)
               (set_SzInfo (field SzInfo_len info)
                  (nid_lit sizeof_NOTIFYICONDATA hwnd iconId NIF_INFO 0 0 0)) in
  let ok := p_Shell_NotifyIcon P (trace s) NIM_MODIFY nid in
  showNotification P hwnd iconId info infoTitle s =
    Ok (if ok then None
        else Some (errors_New "unable to display notification"))
       (log (Shell_NotifyIcon NIM_MODIFY nid ok) s).
Proof.
  intros Hinfo Htitle nid ok. unfold showNotification.
  change (SzInfo (nid_lit _ _ _ _ _ _ _)) with (replicate SzInfo_len 0).
  rewrite copy_zero_field by (done || (unfold SzInfo_len; lia)).
  change (SzInfoTitle (set_SzInfo _ _)) with (replicate SzInfoTitle_len 0).
  unfold must at 1. unfold mbind at 1. unfold M_bind at 1. unfold mret, M_ret at 1.
  rewrite copy_zero_field by (done || (unfold SzInfoTitle_len; lia)).
  unfold must, shell_NotifyIcon, syscall, mbind, M_bind, mret, M_ret.
  fold nid. fold ok. by destruct ok.
Qed.

(** C3, as the code has it: a text without NUL byte is never refused for
    its length.  [setTip] and [showNotification] hand the shell a
    structure that differs from the literal only in the text fields; each
    text field keeps its capacity and reads back as the first
    [capacity - 1] code units of the text, which is the whole text exactly
    when the text is shorter than the capacity. *)
Theorem text_fields_truncate (P : Platform) (hwnd iconId : Z)
    (text info infoTitle : string) (s : State) :
  0 ∉ Utf16.bytes text -> 0 ∉ Utf16.bytes info -> 0 ∉ Utf16.bytes infoTitle ->
  (exists (tip : list Z) (ok : bool),
      setTip P hwnd iconId text s =
        Ok (if ok then None else Some (errors_New "unable to change tooltip"))
           (log (Shell_NotifyIcon NIM_MODIFY
                   (set_SzTip tip
                      (nid_lit sizeof_NOTIFYICONDATA hwnd iconId
                               (Z.lor NIF_TIP NIF_SHOWTIP) 0 0 0)) ok) s) /\
      length tip = SzTip_len /\
      cstring tip = take (SzTip_len - 1) (Utf16.units text) /\
      ((length (Utf16.units text) < SzTip_len)%nat ->
         cstring tip = Utf16.units text) /\
      ((String.length text < SzTip_len)%nat -> cstring tip = Utf16.units text))
  /\
  (exists (szInfo szInfoTitle : list Z) (ok : bool),
      showNotification P hwnd iconId info infoTitle s =
        Ok (if ok then None
            else Some (errors_New "unable to display notification"))
           (log (Shell_NotifyIcon NIM_MODIFY
                   (set_SzInfoTitle szInfoTitle
                      (set_SzInfo szInfo
                         (nid_lit sizeof_NOTIFYICONDATA hwnd iconId
                                  NIF_INFO 0 0 0))) ok) s) /\
      length szInfo = SzInfo_len /\ length szInfoTitle = SzInfoTitle_len /\
      cstring szInfo = take (SzInfo_len - 1) (Utf16.units info) /\
      cstring szInfoTitle =
        take (SzInfoTitle_len - 1) (Utf16.units infoTitle) /\
      ((length (Utf16.units info) < SzInfo_len)%nat ->
         cstring szInfo = Utf16.units info) /\
      ((length (Utf16.units infoTitle) < SzInfoTitle_len)%nat ->
         cstring szInfoTitle = Utf16.units infoTitle)).
Proof.
  intros Htext Hinfo Htitle. split.
  - eexists _, _. split; [by apply setTip_Ok|].
    split; [apply field_length; unfold SzTip_len; lia|].
    split; [by apply field_cstring|].
    split; [by apply field_roundtrip|].
    intros Hlen. apply field_roundtrip; [done|].
    pose proof (Utf16Facts.units_length text). rewrite bytes_length in *. lia.
  - eexists _, _, _. split; [by apply showNotification_Ok|].
    split; [apply field_length; unfold SzInfo_len; lia|].
    split; [apply field_length; unfold SzInfoTitle_len; lia|].
    split; [by apply field_cstring|].
    split; [by apply field_cstring|].
    split; by apply field_roundtrip.
Qed.

Lemma text_fields_truncate_witness :
  exists (tip : list Z) (ok : bool),
    final (setTip win32 42 1 "MyApp Is Running" (initial [])) =
      log (Shell_NotifyIcon NIM_MODIFY
             (set_SzTip tip
                (nid_lit sizeof_NOTIFYICONDATA 42 1
                         (Z.lor NIF_TIP NIF_SHOWTIP) 0 0 0)) ok) (initial []) /\
    cstring tip = Utf16.units "MyApp Is Running".
Proof.
  destruct (text_fields_truncate win32 42 1 "MyApp Is Running" "This is a test."
              "Title" (initial [])) as [(tip & ok & H1 & _ & _ & _ & H2) _].
  - vm_compute. intros H. by repeat (apply elem_of_cons in H as [H|H]; [done|]);
      apply elem_of_nil in H.
  - vm_compute. intros H. by repeat (apply elem_of_cons in H as [H|H]; [done|]);
      apply elem_of_nil in H.
  - vm_compute. intros H. by repeat (apply elem_of_cons in H as [H|H]; [done|]);
      apply elem_of_nil in H.
  - exists tip, ok. split; [by rewrite H1|]. apply H2. simpl. unfold SzTip_len. lia.
Defined.

(** C3 as stated fails twice: a title of exactly the capacity of its
    field is stored without its last unit, and a text with a NUL byte
    makes the actor panic instead of being cut. *)
Lemma text_at_capacity_is_cut :
  (String.length title64 = SzInfoTitle_len /\
   length (Utf16.units title64) = SzInfoTitle_len /\
   exists nid : NOTIFYICONDATA,
     notified (trace (final (session win32 [OpShowNotification "hi" title64])))
       = [nid] /\
     cstring (SzInfoTitle nid) = take 63 (Utf16.units title64) /\
     cstring (SzInfoTitle nid) <> Utf16.units title64) /\
  (exists s : State,
     session win32 [OpSetTip text_with_nul] = Panic s /\ responses (trace s) = []).
Proof.
  split.
  - split; [reflexivity|]. split; [reflexivity|].
    eexists. split; [vm_compute; reflexivity|]. split; [reflexivity|].
    vm_compute. discriminate.
  - eexists. split; [vm_compute; reflexivity|]. reflexivity.
Qed.

(** ** [run]: what happens before the loop, and the loop *)

(** Unfold the monad. *)
Ltac step :=
  unfold mbind, M_bind, mret, M_ret, emit, syscall, history, must, send,
    panic, block, defer in *.

Lemma run_pump (P : Platform) (queue : list MSG) (c : list pMessage) :
  run P queue (initial c) =
    finish (pump P (the_iconId P) (the_hmenu P) queue (started P c)).
Proof.
  unfold started, run, createWindowEx, the_hmenu, the_iconId, initial.
  step. simpl.
  destruct (p_hasSetThreadDpiAwarenessContext P); simpl;
    match goal with
    | |- context [p_CreateWindowEx P ?h =? 0] =>
      destruct (p_CreateWindowEx P h =? 0)
    end; simpl; unfold finish;
    match goal with
    | |- context [pump P ?i ?h queue ?s] => by destruct (pump P i h queue s)
    end.
Qed.

Ltac prelude_cases P :=
  unfold prelude, on_create, the_hwnd, registered, startup, started, run,
    createWindowEx, the_hmenu, the_iconId, initial, wndProc, createTrayIcon,
    setVersion, shell_NotifyIcon;
  step; simpl;
  destruct (p_hasSetThreadDpiAwarenessContext P); simpl;
  match goal with
  | |- context [p_CreateWindowEx P ?h =? 0] =>
    destruct (p_CreateWindowEx P h =? 0) eqn:?
  end; simpl.

Lemma started_state (P : Platform) (c : list pMessage) :
  menuIds (started P c) = 100 /\ menuFns (started P c) = ∅ /\
  messageChan (started P c) = c /\ trace (started P c) = prelude P.
Proof. prelude_cases P; repeat split; reflexivity. Qed.

(** Before the loop nothing was appended, answered, applied or removed,
    no message was retrieved, and the handle went out exactly once. *)
Lemma prelude_quiet (P : Platform) :
  forallb (fun e => negb (is_loop_event e)) (prelude P) = true /\
  appends (prelude P) = [] /\ responses (prelude P) = [] /\
  notified (prelude P) = [] /\ live_files (prelude P) = [] /\
  icon_removed (prelude P) = false /\
  hwnd_sent (prelude P) = Some (the_hwnd P) /\
  hwnd_sent (registered P ++ on_create P) = None.
Proof. prelude_cases P; repeat split; reflexivity. Qed.

Lemma New_hwnd (P : Platform) : New P = Some {| hwnd := the_hwnd P |}.
Proof.
  unfold New, serve. simpl. rewrite run_pump. simpl.
  destruct (started_state P []) as (_ & _ & _ & ->).
  by destruct (prelude_quiet P) as (_ & _ & _ & _ & _ & _ & -> & _).
Qed.

Lemma pump_quit (P : Platform) (i h : Z) (m : MSG) (q : list MSG) (s : State) :
  message m = WM_QUIT ->
  pump P i h (m :: q) s = Ok tt (log (GetMessage m 0) s).
Proof. intros Hm. simpl. unfold getMessage. step. by rewrite Hm. Qed.

Lemma pump_dispatch (P : Platform) (i h : Z) (m : MSG) (q : list MSG)
    (s : State) :
  message m <> WM_QUIT ->
  pump P i h (m :: q) s =
    match wndProc P i h (msg_hwnd m) (message m) (wParam m) (lParam m)
            (log (DispatchMessage m)
               (log (TranslateMessage m) (log (GetMessage m TRUE) s))) with
    | Ok _ s' => pump P i h q s'
    | Panic s' => Panic s'
    | Block s' => Block s'
    end.
Proof.
  intros Hm. simpl. unfold getMessage. step.
  apply Z.eqb_neq in Hm. by rewrite Hm.
Qed.

Lemma mustUTF16PtrFromString_Some (text : string) :
  0 ∉ Utf16.bytes text ->
  mustUTF16PtrFromString text = Some (Utf16.units text ++ [0]).
Proof.
  intros Hnul. unfold mustUTF16PtrFromString, Utf16.UTF16FromString.
  by rewrite bool_decide_false.
Qed.

(** ** One request *)

Lemma wake_AddMenuItem (P : Platform) (i h hw : Z) (text : string)
    (fn : Callback) (c : list pMessage) (s : State) :
  messageChan s = request (OpAddMenuItem text fn) :: c ->
  0 ∉ Utf16.bytes text ->
  let m := request (OpAddMenuItem text fn) in
  let u := Utf16.units text ++ [0] in
  let r := p_AppendMenuW P (trace s ++ [recv_messageChan m]) h 0 (menuIds s)
             (Some u) in
  wndProc P i h hw pWMAPP_MESSAGE 0 0 s =
    Ok 0 {| menuIds := uint32 (menuIds s + 1);
            menuFns := <[menuIds s := fn]> (menuFns s);
            messageChan := c;
            trace := trace s ++
                     [recv_messageChan m;
                      AppendMenuW h 0 (menuIds s) (Some u) r.1;
                      send_returnChan
                        (if r.1 =? 0 then Some (Errno r.2) else None)] |}.
Proof.
  intros Hc Hnul m u r. destruct s as [ids fns ch t]. simpl in *. subst ch.
  unfold wndProc, recv, newMenuId, addMenuItem, appendMenuW. step. simpl.
  rewrite mustUTF16PtrFromString_Some by done. simpl.
  fold m u r.
  destruct (r.1 =? 0); step; unfold log; simpl; by rewrite <- !app_assoc.
Qed.

Lemma wake_AddMenuSeparator (P : Platform) (i h hw : Z)
    (c : list pMessage) (s : State) :
  messageChan s = request OpAddMenuSeparator :: c ->
  let m := request OpAddMenuSeparator in
  let r := p_AppendMenuW P (trace s ++ [recv_messageChan m]) h MF_SEPARATOR 0
             None in
  wndProc P i h hw pWMAPP_MESSAGE 0 0 s =
    Ok 0 {| menuIds := menuIds s;
            menuFns := menuFns s;
            messageChan := c;
            trace := trace s ++
                     [recv_messageChan m;
                      AppendMenuW h MF_SEPARATOR 0 None r.1;
                      send_returnChan
                        (if r.1 =? 0 then Some (Errno r.2) else None)] |}.
Proof.
  intros Hc m r. destruct s as [ids fns ch t]. simpl in *. subst ch.
  unfold wndProc, recv, addMenuSeparator, appendMenuW. step. simpl.
  fold m r.
  destruct (r.1 =? 0); step; unfold log; simpl; by rewrite <- !app_assoc.
Qed.

(** ** Sequences of calls *)

Lemma posted_calls (w : WinTray) (ops : list Op) :
  posted (concat (call w <$> ops)) = (fun _ => wakeup w) <$> ops.
Proof.
  induction ops as [|op ops IH]; [done|].
  rewrite fmap_cons, concat_cons. unfold posted in *.
  rewrite omap_app, IH. by destruct op.
Qed.

Lemma sent_calls (w : WinTray) (ops : list Op) :
  sent (concat (call w <$> ops)) = request <$> ops.
Proof.
  induction ops as [|op ops IH]; [done|].
  rewrite fmap_cons, concat_cons. unfold sent in *.
  rewrite omap_app, IH. by destruct op.
Qed.

Lemma appends_app (t1 t2 : list Event) :
  appends (t1 ++ t2) = appends t1 ++ appends t2.
Proof. apply omap_app. Qed.

Lemma spec_menu_no_items (cs : list MenuCall) (a b : Z) :
  items cs = 0%nat -> spec_menu a cs = spec_menu b cs.
Proof.
  induction cs as [|[text fn|] cs IH]; simpl; intros Hcs; [done| |].
  - unfold items in Hcs. rewrite filter_cons_True in Hcs by done. done.
  - f_equal. apply IH. unfold items in *.
    by rewrite filter_cons_False in Hcs by (simpl; congruence).
Qed.

Lemma spec_menu_ids (cs : list MenuCall) (next : Z) :
  omap entry_id (spec_menu next cs) = seqZ next (Z.of_nat (items cs)).
Proof.
  revert next. induction cs as [|[text fn|] cs IH]; intros next; simpl.
  - done.
  - unfold items. rewrite filter_cons_True by done. simpl length.
    rewrite Nat2Z.inj_succ, seqZ_cons by lia. f_equal.
    rewrite IH. f_equal. unfold items. lia.
  - unfold items. rewrite filter_cons_False by (simpl; congruence). apply IH.
Qed.

Lemma seqZ_sorted (m n : Z) : StronglySorted Z.lt (seqZ m n).
Proof.
  destruct (decide (0 <= n)) as [Hn|Hn].
  2: { rewrite seqZ_nil by lia. constructor. }
  revert m. pattern n. apply natlike_ind; [| |done].
  - intros m. rewrite seqZ_nil by lia. constructor.
  - intros k Hk IH m. rewrite seqZ_cons by lia. constructor.
    + replace (Z.pred (Z.succ k)) with k by lia. apply IH.
    + apply Forall_forall. intros x Hx. apply elem_of_seqZ in Hx. lia.
Qed.

(** The state in which [wndProc] is entered for a retrieved message. *)
Lemma retrieved (m : MSG) (s : State) :
  exists s1 : State,
    s1 = log (DispatchMessage m)
           (log (TranslateMessage m) (log (GetMessage m TRUE) s)) /\
    menuIds s1 = menuIds s /\ menuFns s1 = menuFns s /\
    messageChan s1 = messageChan s /\
    trace s1 = trace s ++ [GetMessage m TRUE; TranslateMessage m;
                           DispatchMessage m].
Proof. eexists. split; [done|]. simpl. by rewrite <- !app_assoc. Qed.

Lemma wrapped_menu_spec (cs : list MenuCall) (next : Z) :
  0 <= next -> next + Z.of_nat (items cs) <= uint32_max ->
  wrapped_menu next cs = spec_menu next cs.
Proof.
  revert next. induction cs as [|[text fn|] cs IH]; intros next Hlo Hhi; simpl.
  - done.
  - unfold items in Hhi. rewrite filter_cons_True in Hhi by done.
    simpl length in Hhi. fold (items cs) in Hhi. f_equal.
    unfold uint32, uint32_max in *.
    destruct (decide (next + 1 = 2 ^ 32)) as [Heq|Hne].
    + rewrite Heq, Z_mod_same_full.
      rewrite IH by lia. apply spec_menu_no_items. lia.
    + rewrite Z.mod_small by lia. apply IH; lia.
  - unfold items in Hhi. rewrite filter_cons_False in Hhi
      by (simpl; congruence). fold (items cs) in Hhi. f_equal. by apply IH.
Qed.

(** The loop over the wake-ups of a sequence of menu calls, from any
    state: every call is received, appended and answered, in order. *)
Lemma pump_menu_calls (P : Platform) (i h : Z) (w : WinTray)
    (cs : list MenuCall) :
  forall s : State,
    messageChan s = request <$> (menu_op <$> cs) ->
    Forall (fun c => converts (menu_op c)) cs ->
    exists s' : State,
      pump P i h ((fun _ => wakeup w) <$> (menu_op <$> cs)) s = Block s' /\
      (appends (trace s')).*1 =
        (appends (trace s)).*1 ++ wrapped_menu (menuIds s) cs /\
      length (responses (trace s')) =
        (length (responses (trace s)) + length cs)%nat /\
      messageChan s' = [] /\
      menuIds s' = Nat.iter (items cs) (fun v => uint32 (v + 1)) (menuIds s).
Proof.
  induction cs as [|c cs IH]; intros s Hch Hconv.
  - exists s. simpl. by rewrite app_nil_r, Nat.add_0_r.
  - rewrite !fmap_cons in *. rewrite pump_dispatch by done.
    apply Forall_cons in Hconv as [Hc Hconv].
    destruct (retrieved (wakeup w) s) as (s1 & <- & Hi1 & Hf1 & Hc1 & Ht1).
    simpl msg_hwnd; simpl message; simpl wParam; simpl lParam.
    rewrite Hch in Hc1.
    destruct c as [text fn|]; simpl menu_op in *.
    + rewrite (wake_AddMenuItem P i h _ text fn (request <$> (menu_op <$> cs)))
        by done.
      rewrite Hi1, Hf1, Ht1.
      match goal with |- context [pump P i h _ ?s2] =>
        destruct (IH s2) as (s' & Hrun & Happ & Hresp & Hmc & Hids) end;
        [done..|].
      exists s'. split; [done|]. split; [|split; [|split; [done|]]].
      * rewrite Happ. simpl trace. rewrite !appends_app. simpl.
        rewrite !fmap_app, app_nil_r. simpl. by rewrite <- app_assoc.
      * rewrite Hresp. simpl trace. unfold responses.
        rewrite !omap_app, !length_app. simpl. lia.
      * rewrite Hids. unfold items. rewrite filter_cons_True by done.
        simpl length. by rewrite Nat.iter_succ_r.
    + rewrite (wake_AddMenuSeparator P i h _ (request <$> (menu_op <$> cs)))
        by done.
      rewrite Hi1, Hf1, Ht1.
      match goal with |- context [pump P i h _ ?s2] =>
        destruct (IH s2) as (s' & Hrun & Happ & Hresp & Hmc & Hids) end;
        [done..|].
      exists s'. split; [done|]. split; [|split; [|split; [done|]]].
      * rewrite Happ. simpl trace. rewrite !appends_app. simpl.
        rewrite !fmap_app, app_nil_r. simpl. by rewrite <- app_assoc.
      * rewrite Hresp. simpl trace. unfold responses.
        rewrite !omap_app, !length_app. simpl. lia.
      * rewrite Hids. unfold items. by rewrite filter_cons_False
          by (simpl; congruence).
Qed.

(** A tray and a sequence of menu calls on it. *)
Lemma session_menu_calls (P : Platform) (cs : list MenuCall) :
  Forall (fun c => converts (menu_op c)) cs ->
  exists s : State,
    session P (menu_op <$> cs) = Block s /\
    (appends (trace s)).*1 = wrapped_menu 100 cs /\
    length (responses (trace s)) = length cs /\
    menuIds s = Nat.iter (items cs) (fun v => uint32 (v + 1)) 100.
Proof.
  intros Hconv. unfold session, serve. rewrite New_hwnd.
  rewrite posted_calls, sent_calls, run_pump.
  destruct (started_state P (request <$> (menu_op <$> cs)))
    as (Hi & Hf & Hc & Ht).
  destruct (pump_menu_calls P (the_iconId P) (the_hmenu P)
              {| hwnd := the_hwnd P |} cs _ Hc Hconv)
    as (s & Hrun & Happ & Hresp & _ & Hids).
  exists s. rewrite Hrun. split; [done|].
  rewrite Ht in Happ, Hresp. rewrite Hi in Happ, Hids.
  destruct (prelude_quiet P) as (_ & Ha & Hr & _).
  rewrite Ha in Happ. rewrite Hr in Hresp. done.
Qed.

Lemma accepted_sublist (l : list (MenuEntry * bool)) :
  (filter (fun a => a.2 = true) l).*1 `sublist_of` l.*1.
Proof.
  induction l as [|[e b] l IH]; [done|]. destruct b.
  - rewrite filter_cons_True by done. csimpl. by apply sublist_skip.
  - rewrite filter_cons_False by done. csimpl. by apply sublist_cons.
Qed.

Lemma accepted_all (l : list (MenuEntry * bool)) :
  Forall (fun a => a.2 = true) l -> (filter (fun a => a.2 = true) l).*1 = l.*1.
Proof.
  induction 1 as [|[e b] l Hb Hl IH]; [done|].
  rewrite filter_cons_True by done. csimpl. by rewrite IH.
Qed.

(** C1, as the code has it: for every sequence of [AddMenuItem] and
    [AddMenuSeparator] calls whose texts convert and which holds at most
    [2^32 - 100] items, the actor asks for the entries in exactly the call
    order, so the menu shows the accepted ones in that order; the
    identifiers of the items are 100, 101, ... in call order, hence
    distinct and increasing, and a separator takes none.  Every call is
    answered. *)
Theorem menu_in_call_order (P : Platform) (cs : list MenuCall) :
  Forall (fun c => converts (menu_op c)) cs ->
  Z.of_nat (items cs) <= uint32_max - 100 ->
  exists s : State,
    session P (menu_op <$> cs) = Block s /\
    (appends (trace s)).*1 = spec_menu 100 cs /\
    menu (trace s) `sublist_of` spec_menu 100 cs /\
    (Forall (fun a => a.2 = true) (appends (trace s)) ->
     menu (trace s) = spec_menu 100 cs) /\
    item_ids (trace s) = seqZ 100 (Z.of_nat (items cs)) /\
    NoDup (item_ids (trace s)) /\
    StronglySorted Z.lt (item_ids (trace s)) /\
    length (responses (trace s)) = length cs.
Proof.
  intros Hconv Hn.
  destruct (session_menu_calls P cs Hconv) as (s & Hs & Happ & Hresp & _).
  rewrite wrapped_menu_spec in Happ by lia.
  exists s. split; [done|]. split; [done|].
  assert (item_ids (trace s) = seqZ 100 (Z.of_nat (items cs))) as Hids
    by (unfold item_ids; by rewrite Happ, spec_menu_ids).
  rewrite Hids. unfold menu. rewrite <- Happ.
  split; [apply accepted_sublist|]. split; [apply accepted_all|].
  split; [done|]. split; [apply NoDup_seqZ|]. split; [apply seqZ_sorted|done].
Qed.

(** Decide that a given text has no NUL byte. *)
Ltac no_nul := apply (bool_decide_unpack _); vm_compute; exact I.

Lemma menu_in_call_order_witness :
  exists s : State,
    session win32 (menu_op <$> scenario) = Block s /\
    menu (trace s) =
      [Item 100 (Utf16.units "Print" ++ [0]);
       Item 101 (Utf16.units "Quit" ++ [0]);
       Separator;
       Item 102 (Utf16.units "About" ++ [0])].
Proof.
  destruct (menu_in_call_order win32 scenario) as (s & Hs & Ha & _ & Hm & _).
  - repeat constructor; no_nul.
  - vm_compute. discriminate.
  - exists s. split; [exact Hs|]. rewrite Hm; [reflexivity|].
    replace s with (final (session win32 (menu_op <$> scenario)))
      by (by rewrite Hs).
    vm_compute. repeat constructor.
Defined.

Lemma sorted_lookup_lt (l : list Z) :
  StronglySorted Z.lt l ->
  forall (i j : nat) (x y : Z),
    l !! i = Some x -> l !! j = Some y -> (i < j)%nat -> x < y.
Proof.
  induction 1 as [|a l Hl IH Ha]; intros i j x y Hi Hj Hij; [done|].
  destruct j as [|j]; [lia|]. destruct i as [|i]; simpl in *.
  - simplify_eq. rewrite Forall_forall in Ha. apply Ha.
    by eapply list_elem_of_lookup_2.
  - eapply IH; [done..|lia].
Qed.

(** The numbering of the code on a run of items. *)
Lemma wrapped_ids_lookup (text : string) (fn : Callback) (n : nat) :
  forall (next : Z) (k : nat),
    0 <= next < uint32_max -> (k < n)%nat ->
    omap entry_id (wrapped_menu next (replicate n (CallAddMenuItem text fn)))
      !! k = Some (uint32 (next + Z.of_nat k)).
Proof.
  induction n as [|n IH]; intros next k Hnext Hk; [lia|].
  simpl. destruct k as [|k]; simpl.
  - f_equal. rewrite Z.add_0_r. unfold uint32. by rewrite Z.mod_small.
  - rewrite IH; [|unfold uint32, uint32_max; by apply Z.mod_pos_bound|lia].
    f_equal. unfold uint32. rewrite Zplus_mod_idemp_l. f_equal. lia.
Qed.

(** C1 as stated fails on a long sequence: the counter is a [uint32], so
    the item that follows identifier [2^32 - 1] gets identifier [0]. *)
Lemma menu_ids_wrap_around :
  exists s : State,
    session win32 (menu_op <$> one_too_many) = Block s /\
    item_ids (trace s) !! Z.to_nat 4294967195 = Some 4294967295 /\
    item_ids (trace s) !! Z.to_nat 4294967196 = Some 0 /\
    ~ StronglySorted Z.lt (item_ids (trace s)).
Proof.
  destruct (session_menu_calls win32 one_too_many) as (s & Hs & Happ & _).
  { apply Forall_replicate. simpl. no_nul. }
  exists s. split; [exact Hs|].
  assert (forall k : Z, 0 <= k < 4294967197 ->
            item_ids (trace s) !! Z.to_nat k = Some (uint32 (100 + k))) as Hk.
  { intros k Hk. unfold item_ids. rewrite Happ. unfold one_too_many.
    rewrite wrapped_ids_lookup; [|unfold uint32_max; lia|lia].
    by rewrite Z2Nat.id by lia. }
  pose proof (Hk 4294967195 ltac:(lia)) as H1.
  pose proof (Hk 4294967196 ltac:(lia)) as H2.
  split; [exact H1|]. split; [exact H2|].
  intros Hsorted.
  assert (Z.to_nat 4294967195 < Z.to_nat 4294967196)%nat as Hlt by lia.
  pose proof (sorted_lookup_lt _ Hsorted _ _ _ _ H1 H2 Hlt) as Habs.
  unfold uint32, uint32_max in Habs. vm_compute in Habs. discriminate.
Qed.

(** ** [setIcon] *)

Lemma live_files_app (t1 t2 : list Event) :
  live_files (t1 ++ t2) =
    foldl (fun fs e => match e with
                       | CreateTemp (Some name) => fs ++ [name]
                       | Remove name => filter (fun f => f ≠ name) fs
                       | _ => fs
                       end) (live_files t1) t2.
Proof. unfold live_files. apply foldl_app. Qed.

Lemma filter_fresh (fs : list string) (name : string) :
  name ∉ fs -> filter (fun f => f ≠ name) (fs ++ [name]) = fs.
Proof.
  intros Hfresh. rewrite filter_app, filter_cons_False, filter_nil, app_nil_r
    by (intros H; by apply H).
  induction fs as [|f fs IH]; [done|].
  rewrite not_elem_of_cons in Hfresh. destruct Hfresh as [Hne Hfresh].
  rewrite filter_cons_True by done. by rewrite IH.
Qed.

(** All of [setIcon]: it answers, and its calls are either a failed
    attempt to create the file, or the creation, the copy, the load,
    perhaps the change of the icon, and the removal. *)
Lemma setIcon_cases (P : Platform) (hwnd iconId : Z) (b : list Z) (s : State) :
  (setIcon P hwnd iconId b s =
     Ok (Some (PathError "open")) (log (CreateTemp None) s)) \/
  (exists name : string,
     (name ∉ live_files (trace s)) /\
     let lp := Utf16.units name ++ [0] in
     let t1 := trace s ++ [CreateTemp (Some name); Copy name b; FileClose name] in
     let h := p_LoadImage P t1 lp b in
     let nid := nid_lit 0 hwnd iconId NIF_ICON 0 h 0 in
     let ok := p_Shell_NotifyIcon P (t1 ++ [LoadImage lp IMAGE_ICON (Z.lor LR_DEFAULTSIZE LR_LOADFROMFILE) h]) NIM_MODIFY nid in
     (h = 0 /\
      setIcon P hwnd iconId b s =
        Ok (Some (errors_New "unable to load icon"))
           {| menuIds := menuIds s; menuFns := menuFns s;
              messageChan := messageChan s;
              trace := t1 ++ [LoadImage lp IMAGE_ICON (Z.lor LR_DEFAULTSIZE LR_LOADFROMFILE) h; Remove name] |}) \/
     (h <> 0 /\
      setIcon P hwnd iconId b s =
        Ok (if ok then None else Some (errors_New "unable to change icon"))
           {| menuIds := menuIds s; menuFns := menuFns s;
              messageChan := messageChan s;
              trace := t1 ++ [LoadImage lp IMAGE_ICON (Z.lor LR_DEFAULTSIZE LR_LOADFROMFILE) h;
                              Shell_NotifyIcon NIM_MODIFY nid ok;
                              Remove name] |})).
Proof.
  destruct s as [ids fns ch t]. unfold setIcon, os_CreateTemp. step. simpl.
  destruct (p_CreateTemp P t) as [name|]; [|by left].
  case_bool_decide as Hname; [by left|]. right. exists name.
  apply Decidable.not_or in Hname as [Hnul Hfresh].
  split; [done|]. simpl.
  rewrite mustUTF16PtrFromString_Some by done. unfold log. simpl.
  rewrite <- !app_assoc. simpl.
  match goal with |- context [p_LoadImage P ?t1 ?lp b] =>
    destruct (p_LoadImage P t1 lp b =? 0) eqn:Hh end; bool_to_prop.
  - left. split; [done|]. simpl. by rewrite <- !app_assoc.
  - right. split; [done|]. unfold shell_NotifyIcon. step. simpl.
    rewrite <- !app_assoc. simpl.
    match goal with |- context [p_Shell_NotifyIcon P ?t2 ?m ?n] =>
      destruct (p_Shell_NotifyIcon P t2 m n) end; simpl;
      by rewrite <- !app_assoc.
Qed.


Lemma wake_SetIcon (P : Platform) (i h hw : Z) (b : list Z)
    (c : list pMessage) (s : State) :
  messageChan s = request (OpSetIconFromBytes b) :: c ->
  wndProc P i h hw pWMAPP_MESSAGE 0 0 s =
    match setIcon P hw i b
            (log (recv_messageChan (request (OpSetIconFromBytes b)))
                 (set_messageChan c s)) with
    | Ok e s' => Ok 0 (log (send_returnChan e) s')
    | Panic s' => Panic s'
    | Block s' => Block s'
    end.
Proof.
  intros Hc. unfold wndProc, recv. step. simpl. rewrite Hc. simpl.
  by destruct (setIcon P hw i b _).
Qed.

Lemma installed_icon_quiet (t new : list Event) :
  Forall (fun e => match e with
                   | Shell_NotifyIcon _ _ true => False
                   | _ => True
                   end) new ->
  installed_icon (t ++ new) = installed_icon t.
Proof.
  intros Hnew. unfold installed_icon. rewrite omap_app.
  match goal with |- context [omap ?f new] =>
    assert (omap f new = []) as -> end; [|by rewrite app_nil_r].
  induction Hnew as [|e new He Hnew IH]; [done|].
  csimpl. rewrite IH. destruct e; try done. by destruct ret.
Qed.

(** C5: when the platform cannot load the image of [b], the request of
    [SetIconFromBytes] is answered with a failure and the shell is not
    asked to change anything, so the icon it shows stays; when the
    platform refuses to change the icon, the request is answered with a
    failure as well, and the icon it shows stays. *)
Theorem setIcon_failure_reported (P : Platform) (i h hw : Z) (b : list Z)
    (c : list pMessage) (s : State) :
  messageChan s = request (OpSetIconFromBytes b) :: c ->
  ((forall (t : list Event) (name : list Z), p_LoadImage P t name b = 0) ->
   exists (e : err) (s' : State),
     wndProc P i h hw pWMAPP_MESSAGE 0 0 s = Ok 0 s' /\
     responses (trace s') = responses (trace s) ++ [Some e] /\
     notified (trace s') = notified (trace s) /\
     installed_icon (trace s') = installed_icon (trace s)) /\
  ((forall (t : list Event) (nid : NOTIFYICONDATA),
       p_Shell_NotifyIcon P t NIM_MODIFY nid = false) ->
   exists (e : err) (s' : State),
     wndProc P i h hw pWMAPP_MESSAGE 0 0 s = Ok 0 s' /\
     responses (trace s') = responses (trace s) ++ [Some e] /\
     installed_icon (trace s') = installed_icon (trace s)).
Proof.
  intros Hc. rewrite (wake_SetIcon P i h hw b c s Hc).
  set (s1 := log _ (set_messageChan c s)).
  assert (trace s1 = trace s ++ [recv_messageChan
            (request (OpSetIconFromBytes b))]) as Ht1 by done.
  destruct (setIcon_cases P hw i b s1)
    as [->|(name & _ & [[Hh ->]|[Hh ->]])]; split.
  - intros _. eexists _, _. split; [done|]. simpl.
    unfold responses, notified. rewrite <- !app_assoc, !omap_app. simpl.
    rewrite !app_nil_r. split; [done|]. split; [done|].
    apply installed_icon_quiet. by repeat constructor.
  - intros _. eexists _, _. split; [done|]. simpl.
    unfold responses. rewrite <- !app_assoc, !omap_app. simpl.
    split; [done|]. apply installed_icon_quiet. by repeat constructor.
  - intros _. eexists _, _. split; [done|]. simpl.
    unfold responses, notified. rewrite <- !app_assoc, !omap_app. simpl.
    rewrite !app_nil_r. split; [done|]. split; [done|].
    apply installed_icon_quiet. by repeat constructor.
  - intros _. eexists _, _. split; [done|]. simpl.
    unfold responses. rewrite <- !app_assoc, !omap_app. simpl.
    split; [done|]. apply installed_icon_quiet. by repeat constructor.
  - intros Hload. by rewrite Hload in Hh.
  - intros Hmod. rewrite Hmod. eexists _, _. split; [done|]. simpl.
    unfold responses. rewrite <- !app_assoc, !omap_app. simpl.
    split; [done|]. apply installed_icon_quiet. by repeat constructor.
Qed.

Lemma setIcon_failure_reported_witness :
  (exists (e : err) (s' : State),
     wndProc no_image 1 7 42 pWMAPP_MESSAGE 0 0
       (initial [request (OpSetIconFromBytes some_ico)]) = Ok 0 s' /\
     responses (trace s') = [Some e] /\ installed_icon (trace s') = None) /\
  (exists (e : err) (s' : State),
     wndProc no_modify 1 7 42 pWMAPP_MESSAGE 0 0
       (initial [request (OpSetIconFromBytes some_ico)]) = Ok 0 s' /\
     responses (trace s') = [Some e] /\ installed_icon (trace s') = None).
Proof.
  split.
  - destruct (setIcon_failure_reported no_image 1 7 42 some_ico []
                (initial [request (OpSetIconFromBytes some_ico)]) eq_refl)
      as [H _].
    destruct (H (fun _ _ => eq_refl)) as (e & s' & H1 & H2 & _ & H3).
    exists e, s'. split; [exact H1|]. split; [exact H2|exact H3].
  - destruct (setIcon_failure_reported no_modify 1 7 42 some_ico []
                (initial [request (OpSetIconFromBytes some_ico)]) eq_refl)
      as [_ H].
    destruct (H (fun _ _ => eq_refl)) as (e & s' & H1 & H2 & H3).
    exists e, s'. split; [exact H1|]. split; [exact H2|exact H3].
Defined.

(** ** A rejected menu item *)

Lemma item_ids_app (t1 t2 : list Event) :
  item_ids (t1 ++ t2) = item_ids t1 ++ item_ids t2.
Proof. unfold item_ids. by rewrite appends_app, fmap_app, omap_app. Qed.

Lemma menu_app (t1 t2 : list Event) : menu (t1 ++ t2) = menu t1 ++ menu t2.
Proof. unfold menu. by rewrite appends_app, filter_app, fmap_app. Qed.

Lemma responses_app (t1 t2 : list Event) :
  responses (t1 ++ t2) = responses t1 ++ responses t2.
Proof. apply omap_app. Qed.

(** C10, as the code has it: when [AppendMenuW] rejects an item, the
    call is answered with the error, nothing is added to the menu, and
    yet the identifier is used up and the callback stays in [menuFns]:
    the next item gets the next identifier, which is one higher as long as
    the rejected item did not take the last value of the counter, and both
    callbacks are registered. *)
Theorem rejected_item_keeps_id (P : Platform) (i h hw : Z)
    (text text' : string) (fn fn' : Callback) (c : list pMessage) (s : State) :
  messageChan s =
    request (OpAddMenuItem text fn) :: request (OpAddMenuItem text' fn') :: c ->
  0 ∉ Utf16.bytes text -> 0 ∉ Utf16.bytes text' ->
  0 <= menuIds s < uint32_max - 1 ->
  (p_AppendMenuW P
     (trace s ++ [recv_messageChan (request (OpAddMenuItem text fn))])
     h 0 (menuIds s) (Some (Utf16.units text ++ [0]))).1 = 0 ->
  exists (code : Z) (s1 s2 : State),
    wndProc P i h hw pWMAPP_MESSAGE 0 0 s = Ok 0 s1 /\
    responses (trace s1) = responses (trace s) ++ [Some (Errno code)] /\
    menu (trace s1) = menu (trace s) /\
    item_ids (trace s1) = item_ids (trace s) ++ [menuIds s] /\
    menuFns s1 !! menuIds s = Some fn /\
    menuIds s1 = menuIds s + 1 /\
    wndProc P i h hw pWMAPP_MESSAGE 0 0 s1 = Ok 0 s2 /\
    item_ids (trace s2) = item_ids (trace s) ++ [menuIds s; menuIds s + 1] /\
    menuFns s2 !! menuIds s = Some fn /\
    menuFns s2 !! (menuIds s + 1) = Some fn'.
Proof.
  intros Hc Ht Ht' Hids Hrej.
  assert (uint32 (menuIds s + 1) = menuIds s + 1) as Hnext
    by (unfold uint32, uint32_max in *; apply Z.mod_small; lia).
  eexists _, _, _.
  rewrite (wake_AddMenuItem P i h hw text fn _ s Hc Ht).
  split; [reflexivity|]. cbn [trace menuIds menuFns messageChan].
  rewrite Hrej. simpl Z.eqb. cbn iota.
  rewrite responses_app, menu_app, item_ids_app.
  split; [reflexivity|]. split; [by rewrite app_nil_r|].
  split; [reflexivity|]. split; [by rewrite lookup_insert_eq|].
  split; [done|].
  rewrite (wake_AddMenuItem P i h hw text' fn' c) by done.
  split; [reflexivity|]. cbn [trace menuIds menuFns messageChan].
  rewrite !item_ids_app, <- app_assoc, Hnext.
  split; [reflexivity|].
  split; [|by rewrite lookup_insert_eq].
  rewrite lookup_insert_ne by lia. by rewrite lookup_insert_eq.
Qed.

Lemma rejected_item_keeps_id_witness :
  exists (code : Z) (s1 s2 : State),
    wndProc no_menu 1 7 42 pWMAPP_MESSAGE 0 0
      (initial [request (OpAddMenuItem "Print" cb_print);
                request (OpAddMenuItem "Quit" cb_quit)]) = Ok 0 s1 /\
    responses (trace s1) = [Some (Errno code)] /\
    menuFns s1 !! 0 = Some cb_print /\
    wndProc no_menu 1 7 42 pWMAPP_MESSAGE 0 0 s1 = Ok 0 s2 /\
    item_ids (trace s2) = [0; 1].
Proof.
  destruct (rejected_item_keeps_id no_menu 1 7 42 "Print" "Quit"
              cb_print cb_quit []
              (initial [request (OpAddMenuItem "Print" cb_print);
                        request (OpAddMenuItem "Quit" cb_quit)]))
    as (code & s1 & s2 & H1 & H2 & _ & _ & H3 & _ & H4 & H5 & _).
  - reflexivity.
  - no_nul.
  - no_nul.
  - simpl. unfold uint32_max. lia.
  - reflexivity.
  - exists code, s1, s2. split; [exact H1|]. split; [exact H2|].
    split; [exact H3|]. split; [exact H4|exact H5].
Defined.

Lemma items_replicate (n : nat) (text : string) (fn : Callback) :
  items (replicate n (CallAddMenuItem text fn)) = n.
Proof.
  unfold items. induction n as [|n IH]; [done|].
  simpl replicate. rewrite filter_cons_True by done. simpl. by rewrite IH.
Qed.

Lemma iter_uint32 (n : nat) (a : Z) :
  0 <= a < uint32_max ->
  Nat.iter n (fun v => uint32 (v + 1)) a = uint32 (a + Z.of_nat n).
Proof.
  intros Ha. induction n as [|n IH].
  - simpl. rewrite Z.add_0_r. unfold uint32. by rewrite Z.mod_small.
  - rewrite Nat.iter_succ, IH. unfold uint32.
    rewrite Zplus_mod_idemp_l. f_equal. lia.
Qed.

(** C10 as stated fails on the last value of the counter, which a long
    enough session reaches: the item rejected with identifier [2^32 - 1]
    is followed by an item with identifier [0], not a higher one. *)
Lemma rejected_item_at_last_id :
  (exists s : State,
     session win32 (menu_op <$> up_to_last_id) = Block s /\
     menuIds s = menuIds at_last_id) /\
  (exists s1 s2 : State,
     wndProc no_menu 1 7 42 pWMAPP_MESSAGE 0 0 at_last_id = Ok 0 s1 /\
     responses (trace s1) = [Some (Errno 5)] /\
     item_ids (trace s1) = [4294967295] /\
     wndProc no_menu 1 7 42 pWMAPP_MESSAGE 0 0 s1 = Ok 0 s2 /\
     item_ids (trace s2) = [4294967295; 0] /\
     ~ StronglySorted Z.lt (item_ids (trace s2))).
Proof.
  split.
  - destruct (session_menu_calls win32 up_to_last_id) as (s & Hs & _ & _ & Hi).
    { apply Forall_replicate. simpl. no_nul. }
    exists s. split; [exact Hs|]. rewrite Hi. unfold up_to_last_id.
    rewrite items_replicate, iter_uint32 by (unfold uint32_max; lia).
    rewrite Z2Nat.id by lia. reflexivity.
  - eexists _, _. split; [vm_compute; reflexivity|].
    split; [reflexivity|]. split; [reflexivity|].
    split; [vm_compute; reflexivity|]. split; [reflexivity|].
    intros Hsorted.
    pose proof (sorted_lookup_lt _ Hsorted 0 1 4294967295 0
                  eq_refl eq_refl ltac:(lia)) as Habs.
    lia.
Qed.

(** ** What a computation adds to the history *)

Section Adds.
Context {Q : Event -> bool}.

Lemma adds_ret {A} (a : A) : adds Q (mret a).
Proof. intros s. exists []. by rewrite app_nil_r. Qed.

Lemma adds_panic {A} : adds Q (@panic A).
Proof. intros s. exists []. by rewrite app_nil_r. Qed.

Lemma adds_block {A} : adds Q (@block A).
Proof. intros s. exists []. by rewrite app_nil_r. Qed.

Lemma adds_silent {A} (f : State -> A * State) :
  (forall s, trace (f s).2 = trace s) ->
  adds Q (fun s => Ok (f s).1 (f s).2).
Proof. intros Hf s. exists []. simpl. by rewrite Hf, app_nil_r. Qed.

Lemma adds_emit (e : Event) : Q e = true -> adds Q (emit e).
Proof. intros He s. exists [e]. simpl. by rewrite He. Qed.

Lemma adds_syscall {A} (answer : list Event -> A) (ev : A -> Event) :
  (forall a, Q (ev a) = true) -> adds Q (syscall answer ev).
Proof. intros He s. eexists [_]. simpl. by rewrite He. Qed.

Lemma adds_must {A} (o : option A) : adds Q (must o).
Proof. destruct o; [apply adds_ret|apply adds_panic]. Qed.

Lemma adds_bind {A B} (m : M A) (k : A -> M B) :
  adds Q m -> (forall a, adds Q (k a)) -> adds Q (m ≫= k).
Proof.
  intros Hm Hk s. unfold mbind, M_bind.
  destruct (Hm s) as (new1 & Ht1 & Hq1).
  destruct (m s) as [a s1|s1|s1]; simpl in Ht1.
  - destruct (Hk a s1) as (new2 & Ht2 & Hq2).
    exists (new1 ++ new2). rewrite Ht2, Ht1, app_assoc. split; [done|].
    by rewrite forallb_app, Hq1, Hq2.
  - by exists new1.
  - by exists new1.
Qed.

Lemma adds_defer {A} (d : M unit) (m : M A) :
  adds Q d -> adds Q m -> adds Q (defer d m).
Proof.
  intros Hd Hm s. unfold defer.
  destruct (Hm s) as (new1 & Ht1 & Hq1).
  destruct (m s) as [a s1|s1|s1]; simpl in Ht1.
  - destruct (Hd s1) as (new2 & Ht2 & Hq2).
    exists (new1 ++ new2). rewrite forallb_app, Hq1, Hq2. split; [|done].
    destruct (d s1); simpl in *; by rewrite Ht2, Ht1, app_assoc.
  - destruct (Hd s1) as (new2 & Ht2 & Hq2).
    exists (new1 ++ new2). rewrite forallb_app, Hq1, Hq2. split; [|done].
    destruct (d s1); simpl in *; by rewrite Ht2, Ht1, app_assoc.
  - by exists new1.
Qed.

End Adds.

Lemma adds_recv : adds pump_event recv.
Proof.
  intros s. unfold recv. destruct (messageChan s) as [|m c].
  - exists []. by rewrite app_nil_r.
  - by exists [recv_messageChan m].
Qed.

Lemma adds_newMenuId : adds pump_event newMenuId.
Proof. intros s. exists []. simpl. by rewrite app_nil_r. Qed.

Lemma adds_wndProc (P : Platform) (i h hw msg wp lp : Z) :
  msg <> WM_QUIT -> adds pump_event (wndProc P i h hw msg wp lp).
Proof.
  intros Hmsg. apply Z.eqb_neq in Hmsg.
  unfold wndProc, createTrayIcon, setVersion, destroyTrayIcon, setIcon,
    os_CreateTemp, setTip, addMenuItem, addMenuSeparator, showNotification,
    showMenu, shell_NotifyIcon, appendMenuW, defWindowProc, send.
  rewrite Hmsg.
  repeat first
    [ apply adds_recv | apply adds_newMenuId
    | apply adds_ret | apply adds_panic | apply adds_must
    | apply adds_emit; reflexivity
    | apply adds_syscall; intros; reflexivity
    | apply adds_bind; [|intros ?]
    | apply adds_defer
    | apply (adds_silent (fun s => (menuFns s, s))); done
    | apply (adds_silent (fun s => (tt, set_menuFns _ s))); done
    | case_match ].
Qed.

Lemma adds_pump (P : Platform) (i h : Z) (q : list MSG) :
  adds pump_event (pump P i h q).
Proof.
  induction q as [|m q IH]; [apply adds_block|]. intros s.
  destruct (decide (message m = WM_QUIT)) as [Hm|Hm].
  - rewrite pump_quit by done. by exists [GetMessage m 0].
  - rewrite pump_dispatch by done.
    destruct (retrieved m s) as (s1 & <- & _ & _ & _ & Ht1).
    destruct (adds_wndProc P i h (msg_hwnd m) (message m) (wParam m)
                (lParam m) Hm s1) as (new1 & Ht2 & Hq2).
    destruct (wndProc P i h (msg_hwnd m) (message m) (wParam m) (lParam m) s1)
      as [a s2|s2|s2]; simpl in Ht2.
    + destruct (IH s2) as (new2 & Ht3 & Hq3).
      exists ([GetMessage m TRUE; TranslateMessage m; DispatchMessage m]
              ++ new1 ++ new2).
      rewrite Ht3, Ht2, Ht1, <- !app_assoc. split; [done|].
      by rewrite !forallb_app, Hq2, Hq3.
    + exists ([GetMessage m TRUE; TranslateMessage m; DispatchMessage m]
              ++ new1).
      simpl final. rewrite Ht2, Ht1, <- !app_assoc. split; [done|].
      by rewrite !forallb_app, Hq2.
    + exists ([GetMessage m TRUE; TranslateMessage m; DispatchMessage m]
              ++ new1).
      simpl final. rewrite Ht2, Ht1, <- !app_assoc. split; [done|].
      by rewrite !forallb_app, Hq2.
Qed.

(** The history of [run]: the start-up, then what the loop adds, then,
    when the loop is left, the deferred calls. *)
Lemma run_trace (P : Platform) (q : list MSG) (c : list pMessage) :
  exists (looped : list Event),
    forallb pump_event looped = true /\
    (trace (final (run P q (initial c))) = prelude P ++ looped \/
     trace (final (run P q (initial c))) =
       prelude P ++ looped ++ [UnlockOSThread; close_closedChan]).
Proof.
  rewrite run_pump.
  destruct (adds_pump P (the_iconId P) (the_hmenu P) q (started P c))
    as (looped & Ht & Hq).
  destruct (started_state P c) as (_ & _ & _ & Hpre). rewrite Hpre in Ht.
  exists looped. split; [done|].
  destruct (pump P (the_iconId P) (the_hmenu P) q (started P c));
    unfold finish; cbn [final trace log] in *; rewrite Ht.
  - right. by rewrite <- !app_assoc.
  - right. by rewrite <- !app_assoc.
  - by left.
Qed.

Lemma icon_removed_app (t1 t2 : list Event) :
  icon_removed (t1 ++ t2) = icon_removed t1 || icon_removed t2.
Proof. apply existsb_app. Qed.

Lemma pump_event_keeps_icon (new : list Event) :
  forallb pump_event new = true -> icon_removed new = false.
Proof.
  induction new as [|e new IH]; [done|]. simpl.
  intros [He Hnew]%andb_prop. rewrite IH by done.
  destruct e; try done. simpl in *. by destruct (dwMessage =? NIM_DELETE).
Qed.

(** Were [WM_QUIT] ever dispatched, the window procedure would remove the
    tray icon. *)
Lemma wndProc_WM_QUIT (P : Platform) (i h hw wp lp : Z) (s : State) :
  exists (nid : NOTIFYICONDATA) (ok : bool),
    wndProc P i h hw WM_QUIT wp lp s =
      Ok 0 (log (Shell_NotifyIcon NIM_DELETE nid ok) s) /\
    HWnd nid = hw /\ UID nid = i.
Proof. eexists _, _. split; [reflexivity|done]. Qed.

(** C2, where the code departs from it: whatever the platform answers,
    whatever messages reach the queue and whatever requests come in, the
    history of [run] holds no [NIM_DELETE].  [GetMessage] answers 0 for
    [WM_QUIT], so the loop is left without dispatching it, and the
    [WM_QUIT] case of [wndProc], the only caller of [destroyTrayIcon], is
    never entered. *)
Theorem run_never_removes_icon (P : Platform) (q : list MSG)
    (c : list pMessage) :
  icon_removed (trace (final (run P q (initial c)))) = false.
Proof.
  destruct (run_trace P q c) as (looped & Hq & [-> | ->]);
    destruct (prelude_quiet P) as (_ & _ & _ & _ & _ & Hpre & _);
    rewrite !icon_removed_app, Hpre, (pump_event_keeps_icon _ Hq); done.
Qed.

(** [New] followed by [Close]: the loop retrieves [WM_QUIT] and is left,
    [closedChan] is closed once, and the tray icon was added but not
    removed. *)
Example close_after_new :
  exists s : State,
    session_closed win32 [] = Ok tt s /\
    trace s = prelude win32 ++
              [GetMessage (quit {| hwnd := 42 |}) 0; UnlockOSThread;
               close_closedChan] /\
    (exists nid ok, Shell_NotifyIcon NIM_ADD nid ok ∈ trace s) /\
    icon_removed (trace s) = false.
Proof.
  eexists. split; [vm_compute; reflexivity|]. split; [reflexivity|].
  split; [|reflexivity]. eexists _, _. vm_compute.
  do 6 apply list_elem_of_further. apply list_elem_of_here.
Qed.

(** ** [New] and the hand-over of the window handle *)

Lemma together_until_send (x : list Step) :
  forall (A rest : list Event) (h : Z) (cs calls : list CallerEvent),
    forallb (fun e => negb (is_hwndChan_event e) && negb (is_loop_event e)) A
      = true ->
    cs = go_run :: recv_hwndChan :: calls \/ cs = recv_hwndChan :: calls ->
    run_together false cs (A ++ send_hwndChan h :: rest) x ->
    (exists x1 x2 : list Step,
        x = x1 ++ by_actor (send_hwndChan h) :: by_caller recv_hwndChan :: x2 /\
        Forall before_hand_over x1 /\
        Forall (fun e => by_actor e ∈ x1) A) \/
    Forall before_hand_over x.
Proof.
  induction x as [|st x IH]; intros A rest h cs calls HA Hcs Hrun.
  { right. constructor. }
  inversion Hrun as [| ? ? e es x' He Hx | ? c cs' ? x' Hc Hx
                     | cs' h' es x' Hx | |]; subst.
  - (* a step of the actor *)
    destruct A as [|a A]; simplify_eq /=; try done.
    apply andb_prop in HA as [[Ha1 Ha2]%andb_prop HA].
    apply negb_true_iff in Ha2.
    destruct (IH A rest h cs calls HA Hcs Hx)
      as [(x1 & x2 & -> & Hx1 & HAx)|Hbefore].
    + left. exists (by_actor a :: x1), x2. split; [done|].
      split; [by constructor|]. constructor; [left|].
      eapply Forall_impl; [exact HAx|]. intros e' He'. by right.
    + right. by constructor.
  - (* a step of the caller *)
    destruct Hcs as [Hcs|Hcs]; simplify_eq /=.
    destruct (IH A rest h (recv_hwndChan :: calls) calls HA (or_intror eq_refl) Hx)
      as [(x1 & x2 & -> & Hx1 & HAx)|Hbefore].
    + left. exists (by_caller go_run :: x1), x2. split; [done|].
      split; [by constructor|].
      eapply Forall_impl; [exact HAx|]. intros e' He'. by right.
    + right. by constructor.
  - (* the hand-over *)
    destruct A as [|a A]; simplify_eq /=; try done.
    left. exists [], x'. split; [done|]. split; constructor.
  - (* closing the channel comes after the send *)
    destruct A as [|a A]; simplify_eq /=; done.
Qed.

Lemma before_window_quiet (P : Platform) :
  forallb (fun e => negb (is_hwndChan_event e) && negb (is_loop_event e))
    (registered P ++ on_create P ++ [CreateWindowEx (the_hwnd P)]) = true.
Proof.
  unfold registered, startup, on_create.
  destruct (p_hasSetThreadDpiAwarenessContext P);
    destruct (the_hwnd P =? 0); reflexivity.
Qed.

(** C8: [New] returns the handle that [CreateWindowEx] gave the actor.
    In every execution of a caller that starts with [New] next to [run],
    either the receive of [New] happens together with the actor's send
    of that handle, after the actor has created the window, and until
    then the caller has done nothing but start the actor and the actor
    has retrieved no message; or the hand-over has not happened yet and
    the same holds of the whole execution so far. *)
Theorem New_waits_for_window (P : Platform) (q : list MSG)
    (c : list pMessage) (calls : list CallerEvent) (x : list Step) :
  run_together false (New_events ++ calls)
               (trace (final (run P q (initial c)))) x ->
  New P = Some {| hwnd := the_hwnd P |} /\
  ((exists x1 x2 : list Step,
       x = x1 ++ by_actor (send_hwndChan (the_hwnd P))
              :: by_caller recv_hwndChan :: x2 /\
       by_actor (CreateWindowEx (the_hwnd P)) ∈ x1 /\
       Forall before_hand_over x1) \/
   Forall before_hand_over x).
Proof.
  intros Hrun. split; [apply New_hwnd|].
  destruct (run_trace P q c) as (looped & _ & Ht).
  assert (exists rest,
            trace (final (run P q (initial c))) =
              (registered P ++ on_create P ++ [CreateWindowEx (the_hwnd P)])
              ++ send_hwndChan (the_hwnd P) :: rest) as [rest Hrest].
  { destruct Ht as [-> | ->]; unfold prelude; eexists;
      rewrite <- !app_assoc; simpl; reflexivity. }
  rewrite Hrest in Hrun.
  destruct (together_until_send x _ rest (the_hwnd P) _ calls
              (before_window_quiet P) (or_introl eq_refl) Hrun)
    as [(x1 & x2 & -> & Hx1 & HA)|Hbefore]; [left|by right].
  exists x1, x2. split; [done|]. split; [|done].
  rewrite Forall_forall in HA. apply HA.
  rewrite !elem_of_app. right. right. left.
Qed.

Lemma New_waits_for_window_witness :
  New win32 = Some {| hwnd := 42 |} /\
  exists x1 x2 : list Step,
    by_caller go_run
      :: (by_actor <$> registered win32 ++ on_create win32 ++
                       [CreateWindowEx 42])
      ++ [by_actor (send_hwndChan 42); by_caller recv_hwndChan;
          by_actor close_hwndChan] =
      x1 ++ by_actor (send_hwndChan 42) :: by_caller recv_hwndChan :: x2 /\
    by_actor (CreateWindowEx 42) ∈ x1.
Proof.
  destruct (New_waits_for_window win32 [] [] []
              (by_caller go_run
                 :: (by_actor <$> registered win32 ++ on_create win32 ++
                                  [CreateWindowEx 42])
                 ++ [by_actor (send_hwndChan 42); by_caller recv_hwndChan;
                     by_actor close_hwndChan])) as [HNew Hx].
  - vm_compute.
    repeat first
      [ apply together_stop | apply together_hand_over | apply together_close
      | apply together_actor; [reflexivity|]
      | apply together_caller; [discriminate|] ].
  - split; [exact HNew|]. destruct Hx as [(x1 & x2 & Hx & Hcw & _)|Hbefore].
    + exists x1, x2. split; [exact Hx|exact Hcw].
    + exfalso. vm_compute in Hbefore.
      repeat match goal with
             | H : Forall _ (_ :: _) |- _ =>
               apply Forall_cons in H as [? H]
             end; discriminate.
Defined.

(** ** The activation of the menu *)

(** In the current window procedure the selected callback is started
    with [go]: the procedure returns whatever the callback does, and when
    the identifier has no callback nothing is started. *)
Lemma activation_detached (P : Platform) (i h hw wp lp : Z) (s : State) :
  LOWORD (uint32 lp) = WM_RBUTTONUP ->
  exists (id : Z) (shown : list Event) (s' : State),
    wndProc P i h hw pWMAPP_NOTIFYCALLBACK wp lp s = Ok 0 s' /\
    menuIds s' = menuIds s /\ menuFns s' = menuFns s /\
    messageChan s' = messageChan s /\
    trace s' = trace s ++ shown ++
               match menuFns s !! id with Some fn => [go fn] | None => [] end /\
    (exists flags x y ret,
        last shown = Some (TrackPopupMenu h flags x y hw ret) /\
        id = uint32 ret) /\
    invoked (trace s') = invoked (trace s) /\
    started_go shown = [].
Proof.
  intros Hlp. destruct s as [ids fns ch t].
  unfold wndProc, showMenu. step. simpl. rewrite Hlp. simpl.
  match goal with |- context [uint32 ?r] => set (ret := r) end.
  exists (uint32 ret). eexists [_; _; _; _].
  destruct (fns !! uint32 ret) as [fn|] eqn:Hfn; simpl; eexists;
    (split; [reflexivity|]); simpl; rewrite <- ?app_assoc; simpl;
    (split; [done|]); (split; [done|]); (split; [done|]);
    (split; [reflexivity|]); (split; [by eexists _, _, _, _|]);
    unfold invoked; rewrite ?omap_app; simpl; by rewrite ?app_nil_r.
Qed.

(** With a callback that never returns selected, the current loop goes
    on to the next message and answers the request that waits. *)
Example blocking_callback_detached :
  exists s : State,
    pump picks_100 1 7 [activation; wakeup {| hwnd := 42 |}]
      (with_blocking_item [request (OpSetTip "x")]) = Block s /\
    started_go (trace s) = [cb_blocks] /\ invoked (trace s) = [] /\
    received (trace s) = [request (OpSetTip "x")] /\
    responses (trace s) = [None].
Proof. eexists. split; [vm_compute; reflexivity|]. by vm_compute. Qed.

(** In the first version the selected callback is called in place: the
    window procedure returns exactly when the callback does. *)
Lemma legacy_activation_inline (P : Platform) (E : Legacy.Extra)
    (i h hw wp lp : Z) (s : State) :
  LOWORD (uint32 lp) = WM_CONTEXTMENU ->
  exists (id : Z) (shown : list Event),
    Legacy.wndProc P E i h hw Legacy.pWMAPP_NOTIFYCALLBACK wp lp s =
      match menuFns s !! id with
      | Some fn => if cb_returns fn then Ok 0 else Block
      | None => Ok 0
      end
        {| menuIds := menuIds s; menuFns := menuFns s;
           messageChan := messageChan s;
           trace := trace s ++ shown ++
                    match menuFns s !! id with
                    | Some fn => [invoke fn]
                    | None => []
                    end |} /\
    started_go shown = [] /\ invoked shown = [].
Proof.
  intros Hlp. destruct s as [ids fns ch t].
  unfold Legacy.wndProc, Legacy.showMenu, Legacy.call_fn. step. simpl.
  rewrite Hlp. simpl.
  match goal with |- context [fns !! ?k] => exists k end.
  eexists [_; _; _; _; _].
  split.
  { match goal with |- context [fns !! ?k] =>
      destruct (fns !! k) as [fn|] end; simpl.
    - destruct (cb_returns fn); unfold log; simpl; by rewrite <- !app_assoc.
    - unfold log; simpl. by rewrite <- !app_assoc. }
  split; reflexivity.
Qed.

(** C6, where [src/wintray.go] departs from it: that window procedure
    calls the selected callback itself.  With a callback that never
    returns, the procedure never returns either: the loop does not reach
    the next message and the request that waits is never received. *)
Theorem legacy_callback_stalls_actor :
  exists s : State,
    Legacy.pump picks_100 shell_96dpi 1 7 [legacy_activation; legacy_wakeup]
      (with_blocking_item [legacy_SetTip "x"]) = Block s /\
    invoked (trace s) = [cb_blocks] /\ started_go (trace s) = [] /\
    received (trace s) = [] /\ messageChan s = [legacy_SetTip "x"] /\
    last (trace s) = Some (invoke cb_blocks).
Proof. eexists. split; [vm_compute; reflexivity|]. by vm_compute. Qed.

(** ** The request protocol *)

Lemma call_shape (w : WinTray) (op : Op) :
  call w op = [PostMessage (hwnd w) pWMAPP_MESSAGE 0 0;
               send_messageChan (request op); recv_returnChan].
Proof. by destruct op. Qed.

Lemma wake_SetTip (P : Platform) (i h hw : Z) (text : string)
    (c : list pMessage) (s : State) :
  messageChan s = request (OpSetTip text) :: c ->
  wndProc P i h hw pWMAPP_MESSAGE 0 0 s =
    match setTip P hw i text
            (log (recv_messageChan (request (OpSetTip text)))
                 (set_messageChan c s)) with
    | Ok e s' => Ok 0 (log (send_returnChan e) s')
    | Panic s' => Panic s'
    | Block s' => Block s'
    end.
Proof.
  intros Hc. unfold wndProc, recv. step. simpl. rewrite Hc. simpl.
  by destruct (setTip P hw i text _).
Qed.

Lemma wake_ShowNotification (P : Platform) (i h hw : Z)
    (info infoTitle : string) (c : list pMessage) (s : State) :
  messageChan s = request (OpShowNotification info infoTitle) :: c ->
  wndProc P i h hw pWMAPP_MESSAGE 0 0 s =
    match showNotification P hw i info infoTitle
            (log (recv_messageChan
                    (request (OpShowNotification info infoTitle)))
                 (set_messageChan c s)) with
    | Ok e s' => Ok 0 (log (send_returnChan e) s')
    | Panic s' => Panic s'
    | Block s' => Block s'
    end.
Proof.
  intros Hc. unfold wndProc, recv. step. simpl. rewrite Hc. simpl.
  by destruct (showNotification P hw i info infoTitle _).
Qed.

(** One request: the actor takes it, makes the calls that belong to it,
    and sends one answer. *)
Ltac shape :=
  split; [done|]; split; [reflexivity|]; split; [done|reflexivity].

Lemma wake_request (P : Platform) (i h hw : Z) (op : Op)
    (c : list pMessage) (s : State) :
  messageChan s = request op :: c -> converts op ->
  exists (r : list Event * error) (s' : State),
    wndProc P i h hw pWMAPP_MESSAGE 0 0 s = Ok 0 s' /\
    messageChan s' = c /\
    trace s' = trace s ++ [recv_messageChan (request op)] ++ r.1 ++
               [send_returnChan r.2] /\
    r.1 <> [] /\ forallb (native_kind op) r.1 = true.
Proof.
  intros Hc Hconv. destruct op as [b|text|text fn| |info infoTitle].
  - rewrite (wake_SetIcon P i h hw b c s Hc).
    destruct (setIcon_cases P hw i b
                (log (recv_messageChan (request (OpSetIconFromBytes b)))
                     (set_messageChan c s)))
      as [->|(name & _ & [[Hh ->]|[Hh ->]])].
    + exists ([CreateTemp None], Some (PathError "open")). eexists.
      split; [reflexivity|]. simpl. rewrite <- !app_assoc. shape.
    + eexists ([_; _; _; _; _], _), _. split; [reflexivity|]. simpl.
      rewrite <- !app_assoc. shape.
    + eexists ([_; _; _; _; _; _], _), _. split; [reflexivity|]. simpl.
      rewrite <- !app_assoc. shape.
  - rewrite (wake_SetTip P i h hw text c s Hc), setTip_Ok by done.
    eexists ([_], _), _. split; [reflexivity|]. simpl.
    rewrite <- ?app_assoc. shape.
  - rewrite (wake_AddMenuItem P i h hw text fn c s Hc Hconv).
    eexists ([_], _), _. split; [reflexivity|]. simpl. shape.
  - rewrite (wake_AddMenuSeparator P i h hw c s Hc).
    eexists ([_], _), _. split; [reflexivity|]. simpl. shape.
  - destruct Hconv as [Hinfo Htitle].
    rewrite (wake_ShowNotification P i h hw info infoTitle c s Hc),
      showNotification_Ok by done.
    eexists ([_], _), _. split; [reflexivity|]. simpl.
    rewrite <- ?app_assoc. shape.
Qed.

(** The loop over the wake-ups of a sequence of calls, with whatever
    messages follow them in the queue. *)
Lemma pump_requests (P : Platform) (i h : Z) (w : WinTray) (ops : list Op) :
  forall s : State,
    messageChan s = request <$> ops ->
    Forall converts ops ->
    exists (rs : list (list Event * error)) (s' : State),
      (forall q : list MSG,
          pump P i h (((fun _ => wakeup w) <$> ops) ++ q) s =
            pump P i h q s') /\
      messageChan s' = [] /\
      trace s' = trace s ++ rounds w ops rs /\
      Forall2 (fun op r => r.1 <> [] /\ forallb (native_kind op) r.1 = true)
              ops rs.
Proof.
  induction ops as [|op ops IH]; intros s Hch Hconv.
  - exists [], s. simpl. rewrite app_nil_r. by repeat split.
  - rewrite !fmap_cons in *.
    apply Forall_cons in Hconv as [Hop Hconv].
    destruct (retrieved (wakeup w) s) as (s1 & Hs1 & _ & _ & Hc1 & Ht1).
    rewrite Hch in Hc1.
    destruct (wake_request P i h (msg_hwnd (wakeup w)) op _ s1 Hc1 Hop)
      as (r & s2 & Hrun & Hc2 & Ht2 & Hne & Hkind).
    destruct (IH s2 Hc2 Hconv) as (rs & s' & Hpump & Hc' & Ht' & Hrs).
    exists (r :: rs), s'. split; [|split; [done|split]].
    + intros q. rewrite <- app_comm_cons, pump_dispatch by done.
      rewrite <- Hs1. simpl message; simpl wParam; simpl lParam.
      rewrite Hrun. apply Hpump.
    + rewrite Ht', Ht2, Ht1. unfold rounds. simpl zip_with.
      rewrite concat_cons. unfold round. by rewrite <- !app_assoc.
    + by constructor.
Qed.

Lemma protocol_skip (ph : Phase) (t1 t2 : list Event) :
  forallb (fun e => negb (is_protocol_event e)) t1 = true ->
  protocol ph (t1 ++ t2) = protocol ph t2.
Proof.
  induction t1 as [|e t1 IH]; [done|]. simpl.
  intros [He Ht1]%andb_prop. rewrite <- IH by done. by destruct e.
Qed.

Lemma native_kind_quiet (op : Op) (native : list Event) :
  forallb (native_kind op) native = true ->
  forallb (fun e => negb (is_protocol_event e)) native = true.
Proof.
  induction native as [|e native IH]; [done|]. simpl.
  intros [He Hn]%andb_prop. rewrite IH by done.
  by destruct op, e.
Qed.

Lemma rounds_cons (w : WinTray) (op : Op) (ops : list Op)
    (r : list Event * error) (rs : list (list Event * error)) :
  rounds w (op :: ops) (r :: rs) = round w op r ++ rounds w ops rs.
Proof. reflexivity. Qed.

Lemma protocol_rounds (w : WinTray) (ops : list Op)
    (rs : list (list Event * error)) :
  Forall2 (fun op r => r.1 <> [] /\ forallb (native_kind op) r.1 = true)
          ops rs ->
  protocol Idle (rounds w ops rs) = true.
Proof.
  induction 1 as [|op r ops rs [_ Hk] Hrs IH]; [done|].
  rewrite rounds_cons. unfold round. simpl. rewrite <- app_assoc.
  rewrite protocol_skip by (by apply (native_kind_quiet op)). simpl. done.
Qed.

Lemma prelude_no_protocol (P : Platform) :
  forallb (fun e => negb (is_protocol_event e)) (prelude P) = true.
Proof.
  unfold prelude, registered, startup, on_create.
  destruct (p_hasSetThreadDpiAwarenessContext P);
    destruct (the_hwnd P =? 0); reflexivity.
Qed.

Lemma native_kind_silent (op : Op) (native : list Event) :
  forallb (native_kind op) native = true ->
  received native = [] /\ responses native = [].
Proof.
  induction native as [|e native IH]; [done|]. simpl.
  intros [He Hn]%andb_prop. destruct (IH Hn) as [IHa IHb].
  unfold received, responses in *. csimpl. rewrite IHa, IHb.
  by destruct op, e.
Qed.

Lemma received_rounds (w : WinTray) (ops : list Op)
    (rs : list (list Event * error)) :
  Forall2 (fun op r => r.1 <> [] /\ forallb (native_kind op) r.1 = true)
          ops rs ->
  received (rounds w ops rs) = request <$> ops /\
  responses (rounds w ops rs) = snd <$> rs.
Proof.
  induction 1 as [|op r ops rs [_ Hk] Hrs [IH1 IH2]]; [done|].
  rewrite rounds_cons. unfold round.
  destruct (native_kind_silent op r.1 Hk) as [Ha Hb].
  unfold received, responses in *.
  rewrite !omap_app, IH1, IH2, Ha, Hb. done.
Qed.

(** C4, as the code has it: every public request method posts one
    wake-up, then hands one request over, then waits for the answer.  For
    a sequence of calls
    whose texts convert, the history of the actor after the start-up is
    one round per call, in order: the wake-up is retrieved and dispatched,
    the request of that call is received, the calls into the system that
    belong to it are made, and one answer is sent; so the history follows
    the turn-taking protocol with never more than one request in flight,
    and the actor ends up waiting for the next message with nothing left
    on the mailbox. *)
Theorem request_protocol (P : Platform) (ops : list Op) :
  Forall converts ops ->
  (forall (w : WinTray) (op : Op),
      call w op = [PostMessage (hwnd w) pWMAPP_MESSAGE 0 0;
                   send_messageChan (request op); recv_returnChan]) /\
  exists (rs : list (list Event * error)) (s : State),
    session P ops = Block s /\
    messageChan s = [] /\
    trace s = prelude P ++ rounds {| hwnd := the_hwnd P |} ops rs /\
    Forall2 (fun op r => r.1 <> [] /\ forallb (native_kind op) r.1 = true)
            ops rs /\
    protocol Idle (trace s) = true /\
    received (trace s) = request <$> ops /\
    responses (trace s) = snd <$> rs /\
    length (responses (trace s)) = length ops.
Proof.
  intros Hconv. split; [apply call_shape|].
  unfold session, serve. rewrite New_hwnd.
  rewrite posted_calls, sent_calls, run_pump.
  destruct (started_state P (request <$> ops)) as (_ & _ & Hc & Ht).
  destruct (pump_requests P (the_iconId P) (the_hmenu P)
              {| hwnd := the_hwnd P |} ops _ Hc Hconv)
    as (rs & s & Hrun & Hmc & Htr & Hrs).
  specialize (Hrun []). rewrite app_nil_r in Hrun.
  exists rs, s. rewrite Hrun. split; [done|]. split; [done|].
  rewrite Ht in Htr. split; [done|]. split; [done|].
  destruct (received_rounds {| hwnd := the_hwnd P |} ops rs Hrs) as [Hrc Hrp].
  destruct (prelude_quiet P) as (_ & _ & Hresp & _).
  rewrite Htr. split; [|split; [|split]].
  - rewrite protocol_skip by apply prelude_no_protocol.
    by apply protocol_rounds.
  - unfold received in *. rewrite omap_app, Hrc.
    assert (omap (fun e => match e with
                           | recv_messageChan m => Some m | _ => None end)
                 (prelude P) = []) as ->; [|done].
    unfold prelude, registered, startup, on_create.
    destruct (p_hasSetThreadDpiAwarenessContext P);
      destruct (the_hwnd P =? 0); reflexivity.
  - by rewrite responses_app, Hresp, Hrp.
  - rewrite responses_app, Hresp, Hrp. simpl. rewrite length_fmap.
    symmetry. by eapply Forall2_length.
Qed.

Lemma request_protocol_witness :
  exists s : State,
    session win32 one_of_each = Block s /\
    protocol Idle (trace s) = true /\
    received (trace s) = request <$> one_of_each /\
    length (responses (trace s)) = 5%nat.
Proof.
  destruct (request_protocol win32 one_of_each)
    as (_ & rs & s & Hs & _ & _ & _ & Hp & Hr & _ & Hl).
  - repeat constructor; no_nul.
  - exists s. split; [exact Hs|]. split; [exact Hp|].
    split; [exact Hr|exact Hl].
Defined.

(** C4 as stated fails for a call whose text has a NUL byte: the wake-up
    is retrieved and the request taken, but the conversion of the text
    panics before the native call, so nothing is appended to the menu and
    no outcome is sent; the request stays in flight for good. *)
Lemma nul_request_gets_no_outcome :
  (0 ∈ Utf16.bytes text_with_nul) /\
  exists s : State,
    session win32 [OpAddMenuItem text_with_nul cb_print] = Panic s /\
    received (trace s) = [request (OpAddMenuItem text_with_nul cb_print)] /\
    appends (trace s) = [] /\
    responses (trace s) = [] /\
    protocol Idle (trace s) = false.
Proof.
  split.
  { vm_compute. apply list_elem_of_further, list_elem_of_here. }
  eexists. split; [vm_compute; reflexivity|]. by vm_compute.
Qed.

(** ** [Close] after a sequence of calls *)





(** ** [copyToUint16Buffer] on every field and text *)

Lemma copy_loop_no_room (src : list Z) :
  src <> [] -> copy_loop [] 0 src = None.
Proof. by destruct src. Qed.

Lemma copyToUint16Buffer_no_room (text : string) :
  copyToUint16Buffer [] text = None.
Proof.
  unfold copyToUint16Buffer, mustUTF16FromString, Utf16.UTF16FromString.
  case_bool_decide; [done|]. apply copy_loop_no_room.
  by destruct (Utf16.units text).
Qed.

(** X3: [copyToUint16Buffer] panics in exactly two cases: the text has
    a NUL byte, or the field has no slot at all, where the terminator
    would go to index -1. *)
Theorem copyToUint16Buffer_panics (buff : list Z) (text : string) :
  copyToUint16Buffer buff text = None <-> 0 ∈ Utf16.bytes text \/ buff = [].
Proof.
  split.
  - intros Hnone.
    destruct (decide (0 ∈ Utf16.bytes text)) as [|Hnul]; [by left|]. right.
    destruct buff as [|v buff]; [done|].
    rewrite copyToUint16Buffer_Some in Hnone by (simpl; lia || done). done.
  - intros [Hnul| ->]; [by apply copyToUint16Buffer_None|].
    apply copyToUint16Buffer_no_room.
Qed.

(** X4: when [copyToUint16Buffer] returns, the field has the length it
    had, and every slot behind the text and its terminator holds what it
    held before: the copy never writes outside the field and never
    clears the rest of it. *)
Theorem copyToUint16Buffer_frame (buff buff' : list Z) (text : string) :
  copyToUint16Buffer buff text = Some buff' ->
  length buff' = length buff /\
  forall i : nat,
    (length (Utf16.units text) < i)%nat -> buff' !! i = buff !! i.
Proof.
  intros Hcopy.
  assert (0 ∉ Utf16.bytes text) as Hnul.
  { intros Hin. by rewrite copyToUint16Buffer_None in Hcopy. }
  assert (buff <> []) as Hne.
  { intros ->. by rewrite copyToUint16Buffer_no_room in Hcopy. }
  assert (1 <= length buff)%nat as Hlen by (destruct buff; simpl; [done|lia]).
  rewrite copyToUint16Buffer_Some in Hcopy by done.
  injection Hcopy as <-.
  set (u := Utf16.units text).
  destruct (decide (length u < length buff)%nat) as [Hfit|Hcut].
  - rewrite take_ge by lia. split.
    + rewrite length_app. simpl. rewrite length_drop. lia.
    + intros i Hi. rewrite lookup_app_r by lia.
      destruct (i - length u)%nat as [|j] eqn:Hj; [lia|]. simpl.
      rewrite lookup_drop. f_equal. lia.
  - rewrite drop_ge by lia. split.
    + rewrite length_app, length_take. simpl. lia.
    + intros i Hi. rewrite !lookup_ge_None_2; [done|lia|].
      rewrite length_app, length_take. simpl. lia.
Qed.

Lemma copyToUint16Buffer_frame_witness :
  length [97; 98; 0; 7] = length [7; 7; 7; 7] /\
  forall i : nat,
    (length (Utf16.units "ab") < i)%nat ->
    [97; 98; 0; 7] !! i = [7; 7; 7; 7] !! i.
Proof.
  apply (copyToUint16Buffer_frame [7; 7; 7; 7] [97; 98; 0; 7] "ab").
  reflexivity.
Defined.

(** ** Messages without a case *)

Lemma wndProc_unhandled (P : Platform) (i h : Z) (m : MSG) (s : State) :
  unhandled m = true ->
  let ret := p_DefWindowProc P (trace s) (msg_hwnd m) (message m) (wParam m)
               (lParam m) in
  wndProc P i h (msg_hwnd m) (message m) (wParam m) (lParam m) s =
    Ok ret (log (DefWindowProc (msg_hwnd m) (message m) (wParam m) (lParam m)
                   ret) s).
Proof.
  unfold unhandled. intros Hm. bool_to_prop.
  unfold wndProc, defWindowProc. step.
  repeat match goal with
         | H : _ <> _ |- _ => apply Z.eqb_neq in H; rewrite H; clear H
         end.
  destruct (message m =? pWMAPP_NOTIFYCALLBACK) eqn:Hn; [|done].
  destruct (LOWORD (uint32 (lParam m)) =? WM_RBUTTONUP) eqn:Hl; [|done].
  simpl in *. congruence.
Qed.

(** X5: a message the window procedure has no case for (anything but
    [WM_CREATE], [WM_QUIT], a request, and the release of the right mouse
    button over the icon) goes to [DefWindowProc] with its own arguments
    and to nothing else.  A queue of such messages is handled one by one,
    in order; the menu counter, the callbacks and the mailbox stay as
    they were, and the loop then waits for the next message. *)
Theorem unhandled_messages_passed_on (P : Platform) (i h : Z)
    (q : list MSG) :
  forall s : State,
    forallb unhandled q = true ->
    exists (rets : list Z) (s' : State),
      length rets = length q /\
      pump P i h q s = Block s' /\
      menuIds s' = menuIds s /\ menuFns s' = menuFns s /\
      messageChan s' = messageChan s /\
      trace s' = trace s ++ concat (zip_with passed_on q rets).
Proof.
  induction q as [|m q IH]; intros s Hq.
  - exists [], s. simpl. by rewrite app_nil_r.
  - simpl in Hq. apply andb_prop in Hq as [Hm Hq].
    assert (message m <> WM_QUIT) as Hquit.
    { unfold unhandled in Hm. bool_to_prop. done. }
    rewrite pump_dispatch by done.
    destruct (retrieved m s) as (s1 & <- & Hi1 & Hf1 & Hc1 & Ht1).
    rewrite wndProc_unhandled by done.
    match goal with |- context [pump P i h q ?s2] =>
      destruct (IH s2 Hq) as (rets & s' & Hlen & Hrun & Hi & Hf & Hc & Ht) end.
    eexists (_ :: rets), s'. split; [simpl; by rewrite Hlen|].
    split; [done|]. cbn [menuIds menuFns messageChan trace log] in *.
    rewrite Hi, Hf, Hc, Ht, Ht1. repeat (split; [done|]).
    simpl. by rewrite <- !app_assoc.
Qed.

Lemma unhandled_messages_passed_on_witness :
  exists (rets : list Z) (s' : State),
    length rets = 2%nat /\
    pump win32 1 7
      [ {| msg_hwnd := 42; message := 0x000F; wParam := 0; lParam := 0 |};
        {| msg_hwnd := 42; message := pWMAPP_NOTIFYCALLBACK; wParam := 0;
           lParam := WM_CONTEXTMENU |} ] (initial []) = Block s' /\
    menuIds s' = 0 /\ menuFns s' = ∅ /\ messageChan s' = [] /\
    trace s' =
      [] ++ concat (zip_with passed_on
        [ {| msg_hwnd := 42; message := 0x000F; wParam := 0; lParam := 0 |};
          {| msg_hwnd := 42; message := pWMAPP_NOTIFYCALLBACK; wParam := 0;
             lParam := WM_CONTEXTMENU |} ] rets).
Proof.
  apply (unhandled_messages_passed_on win32 1 7
    [ {| msg_hwnd := 42; message := 0x000F; wParam := 0; lParam := 0 |};
      {| msg_hwnd := 42; message := pWMAPP_NOTIFYCALLBACK; wParam := 0;
         lParam := WM_CONTEXTMENU |} ] (initial [])).
  reflexivity.
Defined.

(** ** The end of the loop *)

Lemma pump_stops_at_quit (P : Platform) (i h : Z) (m : MSG)
    (q1 q2 : list MSG) :
  message m = WM_QUIT ->
  forall s : State,
    pump P i h (q1 ++ m :: q2) s = pump P i h (q1 ++ [m]) s.
Proof.
  intros Hm. induction q1 as [|a q1 IH]; intros s.
  - simpl app. by rewrite !pump_quit.
  - rewrite <- !app_comm_cons.
    destruct (decide (message a = WM_QUIT)) as [Ha|Ha].
    + by rewrite !pump_quit.
    + rewrite !pump_dispatch by done.
      by destruct (wndProc P i h _ _ _ _ _).
Qed.

(** X6: the loop ends at the first [WM_QUIT] it retrieves: what is in
    the queue behind it has no effect on the run, whatever came before
    it. *)
Theorem messages_after_quit_ignored (P : Platform) (m : MSG)
    (q1 q2 : list MSG) (c : list pMessage) :
  message m = WM_QUIT ->
  run P (q1 ++ m :: q2) (initial c) = run P (q1 ++ [m]) (initial c).
Proof.
  intros Hm. rewrite !run_pump. f_equal. by apply pump_stops_at_quit.
Qed.

Lemma messages_after_quit_ignored_witness :
  run win32 ([wakeup {| hwnd := 42 |}] ++ quit {| hwnd := 42 |} ::
             [wakeup {| hwnd := 42 |}])
      (initial [request (OpSetTip "a"); request (OpSetTip "b")]) =
  run win32 ([wakeup {| hwnd := 42 |}] ++ [quit {| hwnd := 42 |}])
      (initial [request (OpSetTip "a"); request (OpSetTip "b")]).
Proof.
  apply (messages_after_quit_ignored win32 (quit {| hwnd := 42 |})).
  reflexivity.
Defined.



(** ** What [run] does with its channels *)

Lemma pump_event_not_hwndChan (new : list Event) :
  forallb pump_event new = true -> filter is_hwndChan_event new = [].
Proof.
  induction new as [|e new IH]; [done|]. simpl. intros He.
  apply andb_prop in He as [He Hnew].
  rewrite filter_cons_False by (destruct e; simpl in *; congruence).
  by apply IH.
Qed.

Lemma pump_event_not_invoke (new : list Event) :
  forallb pump_event new = true -> invoked new = [].
Proof.
  induction new as [|e new IH]; [done|]. simpl. intros He.
  apply andb_prop in He as [He Hnew].
  unfold invoked in *. destruct e; simpl in *; try congruence; by apply IH.
Qed.

Lemma prelude_hwndChan (P : Platform) :
  filter is_hwndChan_event (prelude P) =
    [send_hwndChan (the_hwnd P); close_hwndChan] /\
  invoked (prelude P) = [].
Proof.
  unfold prelude, on_create, registered, startup.
  destruct (p_hasSetThreadDpiAwarenessContext P);
    destruct (the_hwnd P =? 0); repeat split; reflexivity.
Qed.

(** X8: whatever messages and requests come in, [run] sends on
    [hwndChan] exactly once, the handle [CreateWindowEx] returned, and
    then closes the channel exactly once; it never sends after the
    close. *)
Theorem run_hands_over_once (P : Platform) (q : list MSG)
    (c : list pMessage) :
  filter is_hwndChan_event (trace (final (run P q (initial c)))) =
    [send_hwndChan (the_hwnd P); close_hwndChan].
Proof.
  destruct (run_trace P q c) as (looped & Hq & [-> | ->]);
    rewrite !filter_app, (pump_event_not_hwndChan looped Hq);
    destruct (prelude_hwndChan P) as [-> _]; reflexivity.
Qed.

(** X9: the current [run] never calls a callback on the actor's
    thread, whatever messages and requests come in. *)
Theorem run_never_calls_callback (P : Platform) (q : list MSG)
    (c : list pMessage) :
  invoked (trace (final (run P q (initial c)))) = [].
Proof.
  unfold invoked.
  destruct (run_trace P q c) as (looped & Hq & [-> | ->]);
    rewrite !omap_app; fold (invoked looped); fold (invoked (prelude P));
    rewrite (pump_event_not_invoke looped Hq);
    destruct (prelude_hwndChan P) as [_ ->]; reflexivity.
Qed.

Lemma pump_event_not_deferred (new : list Event) :
  forallb pump_event new = true ->
  (UnlockOSThread ∉ new) /\ (close_closedChan ∉ new).
Proof.
  intros Hq. rewrite forallb_forall in Hq.
  split; intros Hin; apply list_elem_of_In, Hq in Hin; done.
Qed.

Lemma prelude_not_deferred (P : Platform) :
  (UnlockOSThread ∉ prelude P) /\ (close_closedChan ∉ prelude P).
Proof.
  unfold prelude, on_create, registered, startup.
  destruct (p_hasSetThreadDpiAwarenessContext P);
    destruct (the_hwnd P =? 0); simpl; split;
    rewrite !elem_of_cons, elem_of_nil; intros H; decompose [or] H; done.
Qed.

(** X10: the deferred calls of [run].  When [run] returns or panics it
    has unlocked the thread and closed [closedChan], each exactly once
    and as its last two steps; while it waits, for a message or for a
    request, it has done neither. *)
Theorem closedChan_closed_when_run_ends (P : Platform) (q : list MSG)
    (c : list pMessage) :
  match run P q (initial c) with
  | Block s => (UnlockOSThread ∉ trace s) /\ (close_closedChan ∉ trace s)
  | Ok _ s | Panic s =>
    exists t : list Event,
      trace s = t ++ [UnlockOSThread; close_closedChan] /\
      (UnlockOSThread ∉ t) /\ (close_closedChan ∉ t)
  end.
Proof.
  rewrite run_pump.
  destruct (adds_pump P (the_iconId P) (the_hmenu P) q (started P c))
    as (looped & Ht & Hq).
  destruct (started_state P c) as (_ & _ & _ & Hpre). rewrite Hpre in Ht.
  destruct (pump_event_not_deferred looped Hq) as [Hu Hc].
  destruct (prelude_not_deferred P) as [Hu' Hc'].
  destruct (pump P (the_iconId P) (the_hmenu P) q (started P c));
    unfold finish; cbn [final trace log] in *; rewrite Ht.
  - exists (prelude P ++ looped). rewrite <- !app_assoc. split; [done|].
    rewrite !elem_of_app. tauto.
  - exists (prelude P ++ looped). rewrite <- !app_assoc. split; [done|].
    rewrite !elem_of_app. tauto.
  - rewrite !elem_of_app. tauto.
Qed.

(** ** A text that does not convert *)

Lemma showNotification_Panic (P : Platform) (hwnd iconId : Z)
    (info infoTitle : string) (s : State) :
  0 ∈ Utf16.bytes info \/ 0 ∈ Utf16.bytes infoTitle ->
  showNotification P hwnd iconId info infoTitle s = Panic s.
Proof.
  intros Hnul. unfold showNotification.
  destruct (decide (0 ∈ Utf16.bytes info)) as [Hinfo|Hinfo].
  - by rewrite copyToUint16Buffer_None.
  - destruct Hnul as [|Htitle]; [done|].
    change (SzInfo (nid_lit _ _ _ _ _ _ _)) with (replicate SzInfo_len 0).
    rewrite copy_zero_field by (done || (unfold SzInfo_len; lia)).
    step. simpl. by rewrite copyToUint16Buffer_None.
Qed.

(** X11: a request whose text has a NUL byte makes the window procedure
    panic after it has taken the request and before any call into the
    system: no answer is sent, so the caller waits on [returnChan].  For
    [AddMenuItem] the identifier is used up and the callback registered
    by then. *)
Theorem nul_text_panics_unanswered (P : Platform) (i h hw : Z) (op : Op)
    (c : list pMessage) (s : State) :
  messageChan s = request op :: c -> ~ converts op ->
  exists s' : State,
    wndProc P i h hw pWMAPP_MESSAGE 0 0 s = Panic s' /\
    trace s' = trace s ++ [recv_messageChan (request op)] /\
    messageChan s' = c /\
    menuIds s' = match op with
                 | OpAddMenuItem _ _ => uint32 (menuIds s + 1)
                 | _ => menuIds s
                 end /\
    menuFns s' = match op with
                 | OpAddMenuItem _ fn => <[menuIds s := fn]> (menuFns s)
                 | _ => menuFns s
                 end.
Proof.
  intros Hc Hconv. destruct op as [b|text|text fn| |info infoTitle];
    simpl in Hconv; try done.
  - apply dec_stable in Hconv.
    rewrite (wake_SetTip P i h hw text c s Hc), setTip_Panic by done.
    eexists. split; [reflexivity|]. done.
  - apply dec_stable in Hconv.
    destruct s as [ids fns ch t]. simpl in *. subst ch.
    unfold wndProc, recv, newMenuId, addMenuItem. step. simpl.
    unfold mustUTF16PtrFromString, Utf16.UTF16FromString.
    rewrite bool_decide_true by done.
    eexists. split; [reflexivity|]. done.
  - apply not_and_l in Hconv.
    rewrite (wake_ShowNotification P i h hw info infoTitle c s Hc),
      showNotification_Panic.
    + eexists. split; [reflexivity|]. done.
    + destruct Hconv as [H|H]; apply dec_stable in H; tauto.
Qed.

Lemma nul_text_panics_unanswered_witness :
  exists s' : State,
    wndProc win32 1 7 42 pWMAPP_MESSAGE 0 0 nul_item_waiting = Panic s' /\
    trace s' = [] ++ [recv_messageChan
                        (request (OpAddMenuItem text_with_nul cb_print))] /\
    messageChan s' = [] /\
    menuIds s' = uint32 (100 + 1) /\
    menuFns s' = <[100 := cb_print]> ∅.
Proof.
  apply (nul_text_panics_unanswered win32 1 7 42
           (OpAddMenuItem text_with_nul cb_print) [] nul_item_waiting).
  - reflexivity.
  - simpl. intros Hnul. apply Hnul. vm_compute.
    apply list_elem_of_further, list_elem_of_here.
Defined.

(** ** A separator *)



(** ** The callbacks of the menu *)

Lemma callbacks_length (cs : list MenuCall) :
  length (callbacks cs) = items cs.
Proof.
  unfold callbacks, items. induction cs as [|[text fn|] cs IH]; [done|..].
  - rewrite filter_cons_True by done. csimpl. by rewrite IH.
  - rewrite filter_cons_False by (simpl; congruence). by csimpl.
Qed.









(** ** A change of icon that succeeds *)

(** X15: [setIcon] returns [nil] only when the temporary file was
    created, the image loaded to a handle other than 0 and the shell
    accepted it; that handle is then the installed icon, and the file has
    been removed. *)
Theorem setIcon_nil_means_installed (P : Platform) (hwnd iconId : Z)
    (b : list Z) (s s' : State) :
  setIcon P hwnd iconId b s = Ok None s' ->
  exists (name : string) (h : Z),
    h <> 0 /\
    trace s' =
      trace s ++
      [CreateTemp (Some name); Copy name b; FileClose name;
       LoadImage (Utf16.units name ++ [0]) IMAGE_ICON
                 (Z.lor LR_DEFAULTSIZE LR_LOADFROMFILE) h;
       Shell_NotifyIcon NIM_MODIFY (nid_lit 0 hwnd iconId NIF_ICON 0 h 0) true;
       Remove name] /\
    installed_icon (trace s') = Some h.
Proof.
  intros Hrun.
  destruct (setIcon_cases P hwnd iconId b s)
    as [H|(name & _ & [[Hh H]|[Hh H]])]; rewrite H in Hrun; [done..|].
  cbv zeta in *.
  match type of Hrun with
  | context [Shell_NotifyIcon _ _ ?ok] => destruct ok eqn:Hok; [|done]
  end.
  injection Hrun as <-. eexists name, _. split; [exact Hh|].
  cbn [trace]. rewrite <- !app_assoc. split; [reflexivity|].
  unfold installed_icon. rewrite omap_app. simpl.
  by rewrite (last_app _ [_]).
Qed.

Lemma setIcon_nil_means_installed_witness :
  exists (name : string) (h : Z),
    h <> 0 /\
    trace (final (setIcon win32 42 1 some_ico (initial []))) =
      trace (initial []) ++
      [CreateTemp (Some name); Copy name some_ico; FileClose name;
       LoadImage (Utf16.units name ++ [0]) IMAGE_ICON
                 (Z.lor LR_DEFAULTSIZE LR_LOADFROMFILE) h;
       Shell_NotifyIcon NIM_MODIFY (nid_lit 0 42 1 NIF_ICON 0 h 0) true;
       Remove name] /\
    installed_icon (trace (final (setIcon win32 42 1 some_ico (initial []))))
      = Some h.
Proof.
  apply (setIcon_nil_means_installed win32 42 1 some_ico (initial [])).
  vm_compute. reflexivity.
Defined.

(** ** Properties of every run *)

Lemma adds_recv_any (Q : Event -> bool) :
  (forall m, Q (recv_messageChan m) = true) -> adds Q recv.
Proof.
  intros HQ s. unfold recv. destruct (messageChan s) as [|m c].
  - exists []. by rewrite app_nil_r.
  - exists [recv_messageChan m]. simpl. by rewrite HQ.
Qed.

Lemma adds_newMenuId_any (Q : Event -> bool) : adds Q newMenuId.
Proof. intros s. exists []. simpl. by rewrite app_nil_r. Qed.

(** The steps that show that a computation adds only events of a
    kind. *)
Ltac adds_steps :=
  repeat first
    [ apply adds_ret | apply adds_panic | apply adds_block | apply adds_must
    | apply adds_newMenuId_any
    | apply adds_recv_any; intros; reflexivity
    | apply adds_emit; reflexivity
    | apply adds_syscall; intros; reflexivity
    | apply adds_bind; [|intros ?]
    | apply adds_defer
    | apply (adds_silent (fun s => (menuFns s, s))); done
    | apply (adds_silent (fun s => (tt, set_menuFns _ s))); done
    | case_match ].

Ltac unfold_actor :=
  unfold createTrayIcon, setVersion, destroyTrayIcon, setTip, addMenuItem,
    addMenuSeparator, showNotification, showMenu, shell_NotifyIcon,
    appendMenuW, defWindowProc, send.

Lemma live_files_quiet (t new : list Event) :
  forallb (fun e => negb (is_file_event e)) new = true ->
  live_files (t ++ new) = live_files t.
Proof.
  revert t. induction new as [|e new IH]; intros t Hq.
  - by rewrite app_nil_r.
  - simpl in Hq. apply andb_prop in Hq as [He Hq].
    rewrite (cons_middle e), app_assoc, IH by done.
    rewrite live_files_app. by destruct e.
Qed.

Lemma keeps_of_adds {A} (m : M A) :
  adds (fun e => negb (is_file_event e)) m -> keeps_files m.
Proof.
  intros Hm s. destruct (Hm s) as (new & -> & Hq). by apply live_files_quiet.
Qed.

Lemma keeps_bind {A B} (m : M A) (k : A -> M B) :
  keeps_files m -> (forall a, keeps_files (k a)) -> keeps_files (m ≫= k).
Proof.
  intros Hm Hk s. unfold mbind, M_bind. specialize (Hm s).
  destruct (m s) as [a s1|s1|s1]; simpl in Hm; [|done..].
  by rewrite Hk.
Qed.

Lemma keeps_setIcon (P : Platform) (hwnd iconId : Z) (b : list Z) :
  keeps_files (setIcon P hwnd iconId b).
Proof.
  intros s.
  destruct (setIcon_cases P hwnd iconId b s)
    as [->|(name & Hfresh & [[_ ->]|[_ ->]])]; cbn [final trace log].
  - by rewrite live_files_app.
  - rewrite <- !app_assoc, live_files_app. cbn [foldl app].
    by apply filter_fresh.
  - rewrite <- !app_assoc, live_files_app. cbn [foldl app].
    by apply filter_fresh.
Qed.

Lemma keeps_wndProc (P : Platform) (i h hw msg wp lp : Z) :
  keeps_files (wndProc P i h hw msg wp lp).
Proof.
  unfold wndProc.
  repeat first
    [ apply keeps_setIcon
    | apply keeps_bind; [|intros ?]
    | case_match
    | apply keeps_of_adds; unfold_actor; adds_steps ].
Qed.

Lemma keeps_pump (P : Platform) (i h : Z) (q : list MSG) :
  keeps_files (pump P i h q).
Proof.
  induction q as [|m q IH]; intros s; [done|].
  destruct (decide (message m = WM_QUIT)) as [Hm|Hm].
  - rewrite pump_quit by done. simpl. by rewrite live_files_app.
  - rewrite pump_dispatch by done.
    destruct (retrieved m s) as (s1 & <- & _ & _ & _ & Ht1).
    pose proof (keeps_wndProc P i h (msg_hwnd m) (message m) (wParam m)
                  (lParam m) s1) as Hw.
    rewrite Ht1, live_files_app in Hw. simpl in Hw.
    destruct (wndProc P i h (msg_hwnd m) (message m) (wParam m) (lParam m) s1)
      as [a s2|s2|s2]; simpl in Hw; [|done..].
    by rewrite IH.
Qed.

(** X16: no run leaves a temporary file behind, whatever messages and
    requests come in and however the run ends. *)
Theorem run_leaves_no_temp_file (P : Platform) (q : list MSG)
    (c : list pMessage) :
  live_files (trace (final (run P q (initial c)))) = [].
Proof.
  rewrite run_pump.
  pose proof (keeps_pump P (the_iconId P) (the_hmenu P) q (started P c))
    as Hp.
  destruct (started_state P c) as (_ & _ & _ & Hpre).
  destruct (prelude_quiet P) as (_ & _ & _ & _ & Hfiles & _).
  rewrite Hpre, Hfiles in Hp.
  destruct (pump P (the_iconId P) (the_hmenu P) q (started P c));
    unfold finish; cbn [final trace log] in *;
    rewrite <- ?app_assoc, ?live_files_app; cbn [foldl app]; done.
Qed.

(** ** Answers follow requests *)

Lemma answers_ok_weaken (t : list Event) :
  answers_ok false t = true -> answers_ok true t = true.
Proof. induction t as [|e t IH]; [done|]. by destruct e. Qed.

Lemma answers_ok_app (t1 t2 : list Event) :
  forall p : bool,
    answers_ok p t1 = true -> answers_ok false t2 = true ->
    answers_ok p (t1 ++ t2) = true.
Proof.
  induction t1 as [|e t1 IH]; intros p H1 H2.
  - destruct p; [by apply answers_ok_weaken|done].
  - destruct e; simpl in *; try by apply IH.
    apply andb_prop in H1 as [-> H1]. simpl. by apply IH.
Qed.

Lemma answers_ok_quiet (t1 t2 : list Event) (p : bool) :
  forallb off_channel t1 = true ->
  answers_ok p (t1 ++ t2) = answers_ok p t2.
Proof.
  induction t1 as [|e t1 IH]; [done|]. simpl.
  intros [He Ht1]%andb_prop. rewrite <- IH by done. by destruct e.
Qed.

Lemma answers_ok_count (t : list Event) :
  forall p : bool,
    answers_ok p t = true ->
    (length (responses t) <= length (received t) + if p then 1 else 0)%nat.
Proof.
  induction t as [|e t IH]; intros p Hok; [simpl; lia|].
  unfold responses, received in *.
  destruct e; csimpl in *; try by apply IH.
  - specialize (IH true Hok). simpl in IH. destruct p; lia.
  - apply andb_prop in Hok as [-> Hok]. specialize (IH false Hok).
    simpl in IH. lia.
Qed.

Lemma answers_of_adds {A} (p : bool) (m : M A) :
  adds off_channel m -> answers p m.
Proof.
  intros Hm s. destruct (Hm s) as (new & Ht & Hq). exists new.
  split; [done|]. rewrite <- (app_nil_r new). by rewrite answers_ok_quiet.
Qed.

Lemma answers_bind_quiet_l {A B} (p : bool) (m : M A) (k : A -> M B) :
  adds off_channel m -> (forall a, answers p (k a)) -> answers p (m ≫= k).
Proof.
  intros Hm Hk s. unfold mbind, M_bind.
  destruct (Hm s) as (new1 & Ht1 & Hq1).
  destruct (m s) as [a s1|s1|s1]; simpl in Ht1.
  - destruct (Hk a s1) as (new2 & Ht2 & Hq2).
    exists (new1 ++ new2). rewrite Ht2, Ht1, app_assoc. split; [done|].
    by rewrite answers_ok_quiet.
  - exists new1. split; [done|]. rewrite <- (app_nil_r new1).
    by rewrite answers_ok_quiet.
  - exists new1. split; [done|]. rewrite <- (app_nil_r new1).
    by rewrite answers_ok_quiet.
Qed.

Lemma answers_bind_quiet_r {A B} (p : bool) (m : M A) (k : A -> M B) :
  answers p m -> (forall a, adds off_channel (k a)) -> answers p (m ≫= k).
Proof.
  intros Hm Hk s. unfold mbind, M_bind.
  destruct (Hm s) as (new1 & Ht1 & Hq1).
  destruct (m s) as [a s1|s1|s1]; simpl in Ht1.
  - destruct (Hk a s1) as (new2 & Ht2 & Hq2).
    exists (new1 ++ new2). rewrite Ht2, Ht1, app_assoc. split; [done|].
    apply answers_ok_app; [done|].
    rewrite <- (app_nil_r new2). by rewrite answers_ok_quiet.
  - by exists new1.
  - by exists new1.
Qed.

Lemma answers_recv_bind {B} (p : bool) (k : pMessage -> M B) :
  (forall m, answers true (k m)) -> answers p (recv ≫= k).
Proof.
  intros Hk s. unfold mbind, M_bind, recv.
  destruct (messageChan s) as [|m c].
  - exists []. by rewrite app_nil_r.
  - destruct (Hk m (log (recv_messageChan m) (set_messageChan c s)))
      as (new & Ht & Hq).
    exists (recv_messageChan m :: new). split; [|done].
    rewrite Ht. simpl. by rewrite <- app_assoc.
Qed.

Lemma answers_bind_send (m : M error) :
  adds off_channel m -> answers true (m ≫= send).
Proof.
  intros Hm s. unfold mbind, M_bind, send, emit.
  destruct (Hm s) as (new & Ht & Hq).
  destruct (m s) as [e s1|s1|s1]; simpl in Ht.
  - exists (new ++ [send_returnChan e]). simpl. rewrite Ht, app_assoc.
    split; [done|]. by rewrite answers_ok_quiet.
  - exists new. split; [done|]. rewrite <- (app_nil_r new).
    by rewrite answers_ok_quiet.
  - exists new. split; [done|]. rewrite <- (app_nil_r new).
    by rewrite answers_ok_quiet.
Qed.

Lemma answers_send (e : error) : answers true (send e).
Proof. intros s. by exists [send_returnChan e]. Qed.

Lemma answers_wndProc (P : Platform) (i h hw msg wp lp : Z) :
  answers false (wndProc P i h hw msg wp lp).
Proof.
  unfold wndProc.
  repeat first
    [ apply answers_recv_bind; intros ?
    | apply answers_send
    | solve [apply answers_of_adds; unfold_actor; adds_steps]
    | apply answers_bind_quiet_l; [solve [adds_steps]|intros ?]
    | apply answers_bind_send;
      unfold setIcon, os_CreateTemp; unfold_actor; adds_steps
    | apply answers_bind_quiet_r; [|intros ?; solve [adds_steps]]
    | case_match ].
Qed.

Lemma answers_pump (P : Platform) (i h : Z) (q : list MSG) :
  answers false (pump P i h q).
Proof.
  induction q as [|m q IH]; intros s.
  - exists []. by rewrite app_nil_r.
  - destruct (decide (message m = WM_QUIT)) as [Hm|Hm].
    + rewrite pump_quit by done. by exists [GetMessage m 0].
    + rewrite pump_dispatch by done.
      destruct (retrieved m s) as (s1 & <- & _ & _ & _ & Ht1).
      destruct (answers_wndProc P i h (msg_hwnd m) (message m) (wParam m)
                  (lParam m) s1) as (new1 & Ht2 & Hq2).
      destruct (wndProc P i h (msg_hwnd m) (message m) (wParam m) (lParam m)
                  s1) as [a s2|s2|s2]; simpl in Ht2.
      * destruct (IH s2) as (new2 & Ht3 & Hq3).
        exists ([GetMessage m TRUE; TranslateMessage m; DispatchMessage m]
                ++ new1 ++ new2).
        rewrite Ht3, Ht2, Ht1, <- !app_assoc. split; [done|].
        simpl. by apply answers_ok_app.
      * exists ([GetMessage m TRUE; TranslateMessage m; DispatchMessage m]
                ++ new1).
        simpl final. by rewrite Ht2, Ht1, <- !app_assoc.
      * exists ([GetMessage m TRUE; TranslateMessage m; DispatchMessage m]
                ++ new1).
        simpl final. by rewrite Ht2, Ht1, <- !app_assoc.
Qed.

Lemma prelude_off_channel (P : Platform) :
  forallb off_channel (prelude P) = true.
Proof.
  unfold prelude, registered, startup, on_create.
  destruct (p_hasSetThreadDpiAwarenessContext P);
    destruct (the_hwnd P =? 0); reflexivity.
Qed.

(** X17: in every run, each answer sent on [returnChan] follows a
    request taken from [messageChan] that had no answer yet; so the
    actor never answers twice, and never answers without a request. *)
Theorem answers_follow_requests (P : Platform) (q : list MSG)
    (c : list pMessage) :
  let t := trace (final (run P q (initial c))) in
  answers_ok false t = true /\
  (length (responses t) <= length (received t))%nat.
Proof.
  cbv zeta.
  assert (answers_ok false (trace (final (run P q (initial c)))) = true)
    as Hok.
  { rewrite run_pump.
    destruct (answers_pump P (the_iconId P) (the_hmenu P) q (started P c))
      as (looped & Ht & Hq).
    destruct (started_state P c) as (_ & _ & _ & Hpre). rewrite Hpre in Ht.
    pose proof (prelude_off_channel P) as Hpq.
    destruct (pump P (the_iconId P) (the_hmenu P) q (started P c));
      unfold finish; cbn [final trace log] in *; rewrite Ht;
      rewrite <- ?app_assoc, answers_ok_quiet by done;
      (apply answers_ok_app; [done|reflexivity]) || done. }
  split; [done|]. apply answers_ok_count in Hok. lia.
Qed.

(** ** The tooltip of the first version *)

Lemma tip_loop_copied (src : list Z) :
  forall (buff : list Z) (k : nat),
    (k <= length buff)%nat ->
    Legacy.tip_loop buff (Z.of_nat k) src =
      Some (take k buff ++ take (length buff - k) src ++
            drop (k + length src) buff).
Proof.
  induction src as [|v src IH]; intros buff k Hk.
  - simpl. rewrite take_nil, Nat.add_0_r. simpl. by rewrite take_drop.
  - simpl. destruct (Z.of_nat k =? Z.of_nat (length buff)) eqn:Hend;
      bool_to_prop.
    + assert (k = length buff) as -> by lia.
      rewrite Nat.sub_diag, take_ge, drop_ge by lia. simpl.
      by rewrite app_nil_r.
    + assert (k < length buff)%nat as Hlt by lia.
      rewrite index_set_Some by done.
      replace (Z.of_nat k + 1) with (Z.of_nat (S k)) by lia.
      rewrite IH by (rewrite length_insert; lia). f_equal.
      rewrite length_insert.
      rewrite take_S_r with (x := v)
        by (by rewrite list_lookup_insert_eq by done).
      rewrite take_insert_ge by lia.
      rewrite drop_insert_lt by lia.
      replace (length buff - k)%nat with (S (length buff - S k)) by lia.
      simpl. rewrite <- app_assoc. simpl.
      by replace (k + S (length src))%nat with (S (k + length src)) by lia.
Qed.

(** X18: the first version of [setTip] ([src/wintray.go]) stops at the
    end of the field and writes no terminator.  The field it hands to the
    shell holds the first 128 code units of the text followed by zeros,
    so it contains a NUL exactly when the text has fewer than 128 code
    units. *)
Theorem legacy_tip_unterminated (P : Platform) (hwnd iconId : Z)
    (text : string) (s : State) :
  0 ∉ Utf16.bytes text ->
  exists (tip : list Z) (ok : bool),
    Legacy.setTip P hwnd iconId text s =
      Ok tt (log (Shell_NotifyIcon NIM_MODIFY
                    (set_SzTip tip (nid_lit 0 hwnd iconId NIF_TIP 0 0 0)) ok)
                 s) /\
    tip = take SzTip_len (Utf16.units text) ++
          replicate (SzTip_len - length (Utf16.units text)) 0 /\
    length tip = SzTip_len /\
    (0 ∈ tip <-> (length (Utf16.units text) < SzTip_len)%nat).
Proof.
  intros Hnul.
  set (u := Utf16.units text).
  exists (take SzTip_len u ++ replicate (SzTip_len - length u) 0).
  eexists. split; [|split; [done|split]].
  - unfold Legacy.setTip, mustUTF16FromString, Utf16.UTF16FromString.
    rewrite bool_decide_false by done.
    change (SzTip (nid_lit _ _ _ _ _ _ _)) with (replicate SzTip_len 0).
    step. unfold mret, M_ret. cbv beta iota.
    rewrite (tip_loop_copied _ (replicate SzTip_len 0) 0) by lia. fold u.
    rewrite length_replicate, Nat.sub_0_r, drop_replicate. simpl.
    unfold shell_NotifyIcon, syscall.
    replace (take SzTip_len (u ++ [0]) ++
             replicate (SzTip_len - length (u ++ [0])) 0)
      with (take SzTip_len u ++ replicate (SzTip_len - length u) 0);
      [reflexivity|].
    rewrite length_app. simpl.
    destruct (decide (length u < SzTip_len)%nat).
    + rewrite !take_ge by (rewrite ?length_app; simpl; lia).
      rewrite <- app_assoc. simpl.
      by replace (SzTip_len - length u)%nat
        with (S (SzTip_len - (length u + 1))) by lia.
    + rewrite take_app_le by lia. do 2 f_equal. lia.
  - rewrite length_app, length_take, length_replicate. lia.
  - rewrite elem_of_app, elem_of_replicate. split.
    + intros [Hin|[_ Hne]]; [|lia].
      apply elem_of_take in Hin as (j & Hj & _).
      apply list_elem_of_lookup_2 in Hj.
      by apply Utf16Facts.units_nonzero in Hj.
    + intros Hlt. right. split; [done|lia].
Qed.

Lemma legacy_tip_unterminated_witness :
  exists (tip : list Z) (ok : bool),
    Legacy.setTip win32 42 1 "tray" (initial []) =
      Ok tt (log (Shell_NotifyIcon NIM_MODIFY
                    (set_SzTip tip (nid_lit 0 42 1 NIF_TIP 0 0 0)) ok)
                 (initial [])) /\
    tip = take SzTip_len (Utf16.units "tray") ++
          replicate (SzTip_len - length (Utf16.units "tray")) 0 /\
    length tip = SzTip_len /\
    (0 ∈ tip <-> (length (Utf16.units "tray") < SzTip_len)%nat).
Proof.
  apply (legacy_tip_unterminated win32 42 1 "tray" (initial [])). no_nul.
Defined.

(** ** The loop of the first version *)

Lemma adds_call_fn (fn : Callback) : adds legacy_event (Legacy.call_fn fn).
Proof.
  intros s. exists [invoke fn]. unfold Legacy.call_fn.
  by destruct (cb_returns fn).
Qed.

Lemma adds_legacy_wndProc (P : Platform) (E : Legacy.Extra)
    (i h hw msg wp lp : Z) :
  adds legacy_event (Legacy.wndProc P E i h hw msg wp lp).
Proof.
  unfold Legacy.wndProc, Legacy.setTip, Legacy.addMenuItem, Legacy.showMenu.
  unfold_actor.
  repeat first [apply adds_call_fn | progress adds_steps].
Qed.

Lemma adds_legacy_pump (P : Platform) (E : Legacy.Extra) (i h : Z)
    (q : list MSG) :
  adds legacy_event (Legacy.pump P E i h q).
Proof.
  induction q as [|m q IH]; [apply adds_block|].
  simpl. unfold getMessage.
  repeat first
    [ apply IH | apply adds_legacy_wndProc | progress adds_steps ].
Qed.

(** X19: the loop of the first version ([src/wintray.go]) never sends
    an answer and never starts a goroutine for a callback, whatever
    messages and requests come in. *)
Theorem legacy_loop_never_answers (P : Platform) (E : Legacy.Extra)
    (i h : Z) (q : list MSG) (s : State) :
  responses (trace (final (Legacy.pump P E i h q s))) = responses (trace s) /\
  started_go (trace (final (Legacy.pump P E i h q s))) =
    started_go (trace s).
Proof.
  destruct (adds_legacy_pump P E i h q s) as (new & -> & Hq).
  unfold responses, started_go. rewrite !omap_app.
  assert (omap (fun e => match e with
                         | send_returnChan r => Some r
                         | _ => None
                         end) new = [] /\
          omap (fun e => match e with go fn => Some fn | _ => None end) new
            = []) as [-> ->]; [|by rewrite !app_nil_r].
  induction new as [|e new IH]; [done|]. simpl in Hq.
  apply andb_prop in Hq as [He Hq]. destruct (IH Hq) as [IH1 IH2].
  csimpl. rewrite IH1, IH2. by destruct e.
Qed.

(** ** The change of icon of the second version *)

(** X20: the second version of [setIcon] ([src/unnamed/part_002])
    always returns and removes the temporary file it created, but it
    hands the shell whatever [LoadImage] returned, 0 included, and
    ignores the verdict of the shell. *)
Theorem interim_setIcon_applies_any_handle (P : Platform) (hwnd iconId : Z)
    (b : list Z) (s : State) :
  exists s' : State,
    Interim.setIcon P hwnd iconId b s = Ok tt s' /\
    live_files (trace s') = live_files (trace s) /\
    (trace s' = trace s ++ [CreateTemp None] \/
     exists (name : string) (h : Z) (ok : bool),
       trace s' =
         trace s ++
         [CreateTemp (Some name); Copy name b; FileClose name;
          LoadImage (Utf16.units name ++ [0]) IMAGE_ICON
                    (Z.lor LR_DEFAULTSIZE LR_LOADFROMFILE) h;
          Shell_NotifyIcon NIM_MODIFY (nid_lit 0 hwnd iconId NIF_ICON 0 h 0) ok;
          Remove name]).
Proof.
  destruct s as [ids fns ch t]. unfold Interim.setIcon, os_CreateTemp. step.
  simpl.
  destruct (p_CreateTemp P t) as [name|].
  2: { eexists. split; [reflexivity|]. simpl. split; [|by left].
       by rewrite live_files_app. }
  case_bool_decide as Hname.
  { eexists. split; [reflexivity|]. simpl. split; [|by left].
    by rewrite live_files_app. }
  apply Decidable.not_or in Hname as [Hnul Hfresh]. simpl.
  rewrite mustUTF16PtrFromString_Some by done. unfold shell_NotifyIcon.
  step. unfold log. simpl.
  eexists. split; [reflexivity|]. simpl. rewrite <- !app_assoc. simpl.
  split.
  - rewrite live_files_app. cbn [foldl]. by apply filter_fresh.
  - right. by eexists name, _, _.
Qed.

(** When no image can be loaded the second version asks the shell for
    the null icon, and the current one leaves the icon alone. *)
Example interim_setIcon_null_icon :
  installed_icon
    (trace (final (Interim.setIcon no_image 42 1 some_ico (initial [])))) =
    Some 0 /\
  installed_icon
    (trace (final (setIcon no_image 42 1 some_ico (initial [])))) = None.
Proof. split; reflexivity. Qed.
